(** * NarratorPrepPy: the chapter segmenter of [ms_analyzer.py]

    A shallow embedding of [count_words], [split_chapters],
    [get_chapter_start_pages] and the per-chapter loop of [analyze],
    with the properties of the manuscript analyser established (or
    refuted) on it.

    Conventions of the embedding.
    - A Python [str] is a Rocq [string]; characters are classified the
      way Python classifies the code points below 128 (a code point
      from 128 on is taken as neither white space, nor a word
      character, nor a cased letter).  The embedding and Python agree
      on ASCII texts; a property that rests on how the characters of a
      text are classified is therefore stated for the texts that
      satisfy [ascii_text].
    - Page indices and page numbers are [Z], as Python integers are.
    - A value whose Python type is decided at run time ([isinstance])
      is a [pyval].
    - The regular expressions of the source are terms of [regex], run
      by a backtracking matcher that tries alternatives and greedy
      repetitions in the order Python's [re] does. *)

From Stdlib Require Import ZArith NArith Bool Ascii String List Lia.
From stdpp Require Import base option list strings gmap.

Local Open Scope string_scope.
Local Open Scope list_scope.
Local Open Scope Z_scope.

(** ** Characters *)

Module Char.

Definition code (c : ascii) : N := N_of_ascii c.

Definition in_range (lo hi : N) (c : ascii) : bool :=
  ((lo <=? code c) && (code c <=? hi))%N.

Definition is_digit (c : ascii) : bool := in_range 48 57 c.
Definition is_upper (c : ascii) : bool := in_range 65 90 c.
Definition is_lower (c : ascii) : bool := in_range 97 122 c.
Definition is_alpha (c : ascii) : bool := is_upper c || is_lower c.

(** [\w]: letters, digits and the underscore. *)
Definition is_word (c : ascii) : bool :=
  is_alpha c || is_digit c || (code c =? 95)%N.

(** [str.isspace] and [\s]: TAB, LF, VT, FF, CR, FS, GS, RS, US, SPACE. *)
Definition is_space (c : ascii) : bool :=
  in_range 9 13 c || in_range 28 32 c.

(** The line boundaries of [str.splitlines]: LF, VT, FF, CR, FS, GS, RS. *)
Definition is_linebreak (c : ascii) : bool :=
  in_range 10 13 c || in_range 28 30 c.

(** [.] without DOTALL: anything but LF. *)
Definition not_newline (c : ascii) : bool := negb (code c =? 10)%N.

Definition lower (c : ascii) : ascii :=
  if is_upper c then ascii_of_N (code c + 32) else c.

Definition upper (c : ascii) : ascii :=
  if is_lower c then ascii_of_N (code c - 32) else c.

Definition eqb (a b : ascii) : bool := (code a =? code b)%N.

(** Membership of a character in the characters of a string: [[ivxlcdm]]. *)
Fixpoint one_of (cs : string) (c : ascii) : bool :=
  match cs with
  | EmptyString => false
  | String d cs' => eqb d c || one_of cs' c
  end.

End Char.

(** ** The string methods the source calls *)

Module Str.

Definition nl : string := String "010"%char EmptyString.

Fixpoint lstrip (s : string) : string :=
  match s with
  | EmptyString => EmptyString
  | String c s' => if Char.is_space c then lstrip s' else s
  end.

Fixpoint rstrip (s : string) : string :=
  match s with
  | EmptyString => EmptyString
  | String c s' =>
      match rstrip s' with
      | EmptyString => if Char.is_space c then EmptyString else String c EmptyString
      | r => String c r
      end
  end.

(** [s.strip()] *)
Definition strip (s : string) : string := rstrip (lstrip s).

(** [s.upper()] *)
Fixpoint upper (s : string) : string :=
  match s with
  | EmptyString => EmptyString
  | String c s' => String (Char.upper c) (upper s')
  end.

Fixpoint lower (s : string) : string :=
  match s with
  | EmptyString => EmptyString
  | String c s' => String (Char.lower c) (lower s')
  end.

(** [s.splitlines()]: [cur] is the line being read, most recent
    character last.  CR LF is one boundary; no empty last line is
    produced after a final boundary. *)
Fixpoint splitlines_from (cur : string) (s : string) : list string :=
  match s with
  | EmptyString =>
      match cur with
      | EmptyString => []
      | _ => [cur]
      end
  | String c s' =>
      if Char.is_linebreak c then
        cur :: match s' with
               | String d s'' =>
                   if (Char.code c =? 13)%N && (Char.code d =? 10)%N
                   then splitlines_from EmptyString s''
                   else splitlines_from EmptyString s'
               | EmptyString => splitlines_from EmptyString s'
               end
      else splitlines_from (cur +:+ String c EmptyString) s'
  end.

Definition splitlines (s : string) : list string :=
  splitlines_from EmptyString s.

Fixpoint startswith (p s : string) : bool :=
  match p, s with
  | EmptyString, _ => true
  | String a p', String b s' => Char.eqb a b && startswith p' s'
  | String _ _, EmptyString => false
  end.

(** [needle in hay] *)
Fixpoint contains (needle hay : string) : bool :=
  startswith needle hay ||
  match hay with
  | EmptyString => false
  | String _ hay' => contains needle hay'
  end.

(** [sep.join(parts)] *)
Fixpoint join (sep : string) (parts : list string) : string :=
  match parts with
  | [] => EmptyString
  | [p] => p
  | p :: ps => p +:+ sep +:+ join sep ps
  end.

End Str.

(** ** Regular expressions *)

Module Re.

(** The syntax the patterns of the source need.  Repetition is only
    ever applied to a character class there. *)
Inductive regex : Type :=
| Bol                                (* ^ *)
| Lit (s : string)                   (* literal text *)
| Plus (q : ascii -> bool)           (* class+, greedy *)
| Star (q : ascii -> bool)           (* class*, greedy *)
| Opt (r : regex)                    (* (r)? *)
| Alt (r1 r2 : regex)                (* r1|r2 *)
| Seq (r1 r2 : regex)
| WordB.                             (* \b *)

(** A compiled pattern: the expression and the IGNORECASE flag. *)
Record pattern : Type := compile { expr : regex; ignorecase : bool }.

(** A class under IGNORECASE accepts a character when it contains the
    character or one of its case variants. *)
Definition in_class (ic : bool) (q : ascii -> bool) (c : ascii) : bool :=
  q c || (ic && (q (Char.lower c) || q (Char.upper c))).

Definition same_char (ic : bool) (a b : ascii) : bool :=
  if ic then Char.eqb (Char.lower a) (Char.lower b) else Char.eqb a b.

Definition word_before (prev : option ascii) : bool :=
  match prev with
  | Some c => Char.is_word c
  | None => false
  end.

Definition word_after (s : string) : bool :=
  match s with
  | String c _ => Char.is_word c
  | EmptyString => false
  end.

Definition orelse {A} (x : option A) (y : option A) : option A :=
  match x with
  | Some _ => x
  | None => y
  end.

(** The matcher is written with a continuation [k] that receives the
    character just before the current position and the text still to
    read, and returns what is left after the whole match (or [None] to
    make the matcher backtrack). *)
Definition cont : Type := option ascii -> string -> option string.

Fixpoint greedy (q : ascii -> bool) (prev : option ascii) (s : string)
    (k : cont) : option string :=
  match s with
  | String c s' =>
      if q c then orelse (greedy q (Some c) s' k) (k prev s) else k prev s
  | EmptyString => k prev s
  end.

Fixpoint literal (ic : bool) (l : string) (prev : option ascii) (s : string)
    (k : cont) : option string :=
  match l with
  | EmptyString => k prev s
  | String a l' =>
      match s with
      | String c s' =>
          if same_char ic a c then literal ic l' (Some c) s' k else None
      | EmptyString => None
      end
  end.

Fixpoint run (ic : bool) (r : regex) (prev : option ascii) (s : string)
    (k : cont) : option string :=
  match r with
  | Bol => match prev with None => k prev s | Some _ => None end
  | Lit l => literal ic l prev s k
  | Plus q =>
      match s with
      | String c s' =>
          if in_class ic q c then greedy (in_class ic q) (Some c) s' k else None
      | EmptyString => None
      end
  | Star q => greedy (in_class ic q) prev s k
  | Opt r1 => orelse (run ic r1 prev s k) (k prev s)
  | Alt r1 r2 => orelse (run ic r1 prev s k) (run ic r2 prev s k)
  | Seq r1 r2 => run ic r1 prev s (fun p t => run ic r2 p t k)
  | WordB => if xorb (word_before prev) (word_after s) then k prev s else None
  end.

(** One attempt at the position after [prev]: the text left after the
    match, if there is one. *)
Definition match_at (p : pattern) (prev : option ascii) (s : string)
    : option string :=
  run (ignorecase p) (expr p) prev s (fun _ t => Some t).

(** [p.match(s)], used for its truth value only. *)
Definition matches (p : pattern) (s : string) : bool :=
  match match_at p None s with
  | Some _ => true
  | None => false
  end.

(** [len(p.findall(s))]: matches are looked for from left to right and
    do not overlap.  [skip] counts the characters of the last match
    still to be passed over.  (An empty match is counted and the scan
    moves on by one character; the pattern of [count_words] never
    matches the empty string.) *)
Fixpoint findall_count (p : pattern) (skip : nat) (prev : option ascii)
    (s : string) : nat :=
  match skip with
  | S skip' =>
      match s with
      | String c s' => findall_count p skip' (Some c) s'
      | EmptyString => O
      end
  | O =>
      match match_at p prev s with
      | Some rest =>
          match s with
          | String c s' =>
              S (findall_count p (Nat.pred (String.length s - String.length rest)) (Some c) s')
          | EmptyString => 1%nat
          end
      | None =>
          match s with
          | String c s' => findall_count p O (Some c) s'
          | EmptyString => O
          end
      end
  end.

End Re.

(** ** [count_words] *)

(** [r'\b\w+\b'] *)
Definition word_pattern : Re.pattern :=
  Re.compile (Re.Seq Re.WordB (Re.Seq (Re.Plus Char.is_word) Re.WordB)) false.

Definition count_words (text : string) : nat :=
  Re.findall_count word_pattern O None text.

(** ** Python values and exceptions *)

(** The values whose type the source inspects at run time. *)
#[local] Set Warnings "-register-all".
Inductive pyval : Type :=
| PyNone
| PyInt (z : Z)
| PyStr (s : string)
| PyTuple (items : list pyval)
| PyList (items : list pyval).

Inductive exn : Type := IndexError | TypeError | ValueError | AttributeError.

Inductive res (A : Type) : Type :=
| Ok (a : A)
| Raise (e : exn).
Arguments Ok {A} a.
Arguments Raise {A} e.

Definition bind {A B} (x : res A) (f : A -> res B) : res B :=
  match x with
  | Ok a => f a
  | Raise e => Raise e
  end.

(** ** [split_chapters] *)

(** [re.compile(r"^(?:chapter|book)\s+(?:\d+|[a-z]+|[ivxlcdm]+)\b.*", re.IGNORECASE)] *)
Definition chapter_regex : Re.pattern :=
  Re.compile
    (Re.Seq Re.Bol
      (Re.Seq (Re.Alt (Re.Lit "chapter") (Re.Lit "book"))
        (Re.Seq (Re.Plus Char.is_space)
          (Re.Seq (Re.Alt (Re.Plus Char.is_digit)
                     (Re.Alt (Re.Plus (Char.in_range 97 122))
                             (Re.Plus (Char.one_of "ivxlcdm"))))
            (Re.Seq Re.WordB (Re.Star Char.not_newline))))))
    true.

(** [^<words>\b], IGNORECASE *)
Definition section_regex (r : Re.regex) : Re.pattern :=
  Re.compile (Re.Seq Re.Bol (Re.Seq r Re.WordB)) true.

(** The dictionary [section_patterns], in insertion order (the order in
    which [items()] yields it). *)
Definition section_patterns : list (string * Re.pattern) :=
  [ ("Prologue", section_regex (Re.Lit "prologue"));
    ("Epilogue", section_regex (Re.Lit "epilogue"));
    ("Acknowledgements",
       section_regex (Re.Seq (Re.Lit "acknowledg")
                        (Re.Seq (Re.Opt (Re.Lit "e")) (Re.Lit "ments"))));
    ("Dedication", section_regex (Re.Lit "dedication"));
    ("Character List", section_regex (Re.Lit "character list"));
    ("About the Author", section_regex (Re.Lit "about the author"));
    ("Also by the Author", section_regex (Re.Lit "also by the author"));
    ("Thank You", section_regex (Re.Lit "thank you")) ].

(** A page entry [(i, page_text)] of a chapter. *)
Definition entry : Type := Z * string.

(** A chapter tuple [(title, start, end, pages)].  The title and the
    start are [None] until a heading has been seen. *)
Record chapter : Type := mkChapter {
  title : option string;
  startPage : option Z;
  endPage : Z;
  content : list entry
}.

(** The local variables of [split_chapters].  [current_chapter] is
    [Some l] for a list object [l]; the source never assigns [None] to
    it. *)
Record state : Type := mkState {
  chapters : list chapter;
  current_chapter : option (list entry);
  current_title : option string;
  current_start : option Z
}.

(** [chapters = []; current_chapter = []; current_title = None;
    current_start = None] *)
Definition init : state := mkState [] (Some []) None None.

(** [if current_chapter:], the truth value of the list. *)
Definition truthy (cc : option (list entry)) : bool :=
  match cc with
  | Some (_ :: _) => true
  | _ => false
  end.

Definition entries (cc : option (list entry)) : list entry :=
  match cc with
  | Some l => l
  | None => []
  end.

(** The block run at a heading (the same in both branches of the
    source, up to the title):
    [if current_chapter: chapters.append((current_title, current_start, i - 1, current_chapter))]
    [current_title = t; current_start = i; current_chapter = [(i, page_text)]] *)
Definition open_chapter (st : state) (i : Z) (page_text t : string) : state :=
  mkState
    (if truthy (current_chapter st)
     then chapters st ++
          [mkChapter (current_title st) (current_start st) (i - 1)
             (entries (current_chapter st))]
     else chapters st)
    (Some [(i, page_text)])
    (Some t)
    (Some i).

(** [for label, regex in section_patterns.items(): if regex.match(clean_line): ... break] *)
Fixpoint find_section (ps : list (string * Re.pattern)) (clean_line : string)
    : option string :=
  match ps with
  | [] => None
  | (label, rx) :: ps' =>
      if Re.matches rx clean_line then Some label
      else find_section ps' clean_line
  end.

(** [for line in lines:], giving the state and [matched]. *)
Fixpoint scan_lines (st : state) (i : Z) (page_text : string)
    (lines : list string) : state * bool :=
  match lines with
  | [] => (st, false)
  | line :: rest =>
      let clean_line := Str.strip line in
      if Re.matches chapter_regex clean_line
      then (open_chapter st i page_text clean_line, true)
      else match find_section section_patterns clean_line with
           | Some label => (open_chapter st i page_text label, true)
           | None => scan_lines st i page_text rest
           end
  end.

(** [current_chapter.append((i, page_text))] under
    [if not matched and current_chapter is not None:] *)
Definition append_page (st : state) (i : Z) (page_text : string) : state :=
  match current_chapter st with
  | Some l =>
      mkState (chapters st) (Some (l ++ [(i, page_text)]))
        (current_title st) (current_start st)
  | None => st
  end.

(** The body of [for i, page_text in enumerate(pages):]. *)
Definition page_step (st : state) (i : Z) (page : pyval) : state :=
  match page with
  | PyStr page_text =>
      let (st', matched) := scan_lines st i page_text (Str.splitlines page_text) in
      if matched then st' else append_page st' i page_text
  | _ => st
  end.

Fixpoint scan_pages (st : state) (i : Z) (pages : list pyval) : state :=
  match pages with
  | [] => st
  | page :: rest => scan_pages (page_step st i page) (i + 1) rest
  end.

(** [if current_chapter: chapters.append((current_title, current_start, len(pages) - 1, current_chapter))]
    [return chapters] *)
Definition close_last (st : state) (n : Z) : list chapter :=
  if truthy (current_chapter st)
  then chapters st ++
       [mkChapter (current_title st) (current_start st) (n - 1)
          (entries (current_chapter st))]
  else chapters st.

Definition split_chapters (pages : list pyval) : list chapter :=
  close_last (scan_pages init 0 pages) (Z.of_nat (length pages)).

Definition ex_pages : list pyval :=
  [ PyStr ("Chapter One" +:+ Str.nl +:+ "Text A");
    PyStr "More text";
    PyStr ("Chapter Two" +:+ Str.nl +:+ "Text B") ].

(** ** The per-chapter loop of [analyze] *)

(** A reported page field: a number, or the string ["?"]. *)
Inductive cell : Type :=
| Num (z : Z)
| Unknown.

(** A dictionary of [chapter_data], with the keys of the source. *)
Module Stat.
Record row : Type := mk {
  chapter : Z;
  title : option string;
  start_page : cell;
  end_page : cell;
  page_count : cell;
  word_count : nat
}.
End Stat.

(** An operand of [-] or [+] with an integer: [None] raises TypeError. *)
Definition as_int (v : option Z) : res Z :=
  match v with
  | Some z => Ok z
  | None => Raise TypeError
  end.

(** The body of [try:].  Every entry of [content] is a non-empty
    tuple, so the filter of the generator keeps them all and
    [text_block] joins the page texts; [end_page] is always an integer,
    [start_page] may be [None]. *)
Definition chapter_row (i : Z) (c : chapter) : res Stat.row :=
  let text_block := Str.join Str.nl (map snd (content c)) in
  let word_count := count_words text_block in
  bind (as_int (startPage c)) (fun start_page =>
    let page_count := endPage c - start_page + 1 in
    Ok (Stat.mk i (title c) (Num (start_page + 1)) (Num (endPage c + 1))
          (Num page_count) word_count)).

(** The dictionary appended under [except Exception:]. *)
Definition placeholder_row (i : Z) (c : chapter) : Stat.row :=
  Stat.mk i (title c) Unknown Unknown Unknown O.

(** [for i, (title, start_page, end_page, content) in enumerate(chapters, start=1):] *)
Fixpoint chapter_rows (i : Z) (chs : list chapter) : list Stat.row :=
  match chs with
  | [] => []
  | c :: rest =>
      match chapter_row i c with
      | Ok r => r
      | Raise _ => placeholder_row i c
      end :: chapter_rows (i + 1) rest
  end.

(** [stats, chapter_data] for the chapters found. *)
Definition analyze_chapters (chs : list chapter) : nat * list Stat.row :=
  let chapter_data := chapter_rows 1 chs in
  (length chapter_data, chapter_data).

(** ** [get_chapter_start_pages] *)

(** The chapter tuples of [split_chapters] as Python values. *)
Definition str_or_none (o : option string) : pyval :=
  match o with
  | Some s => PyStr s
  | None => PyNone
  end.

Definition int_or_none (o : option Z) : pyval :=
  match o with
  | Some z => PyInt z
  | None => PyNone
  end.

Definition entry_value (e : entry) : pyval :=
  PyTuple [PyInt (fst e); PyStr (snd e)].

Definition chapter_value (c : chapter) : pyval :=
  PyTuple [ str_or_none (title c); int_or_none (startPage c);
            PyInt (endPage c); PyList (map entry_value (content c)) ].

(** [v[0]] *)
Definition getitem0 (v : pyval) : res pyval :=
  match v with
  | PyTuple (x :: _) | PyList (x :: _) => Ok x
  | PyTuple [] | PyList [] => Raise IndexError
  | PyStr (String c _) => Ok (PyStr (String c EmptyString))
  | PyStr EmptyString => Raise IndexError
  | PyNone | PyInt _ => Raise TypeError
  end.

(** [page_text.strip().splitlines()[0].strip().upper()] *)
Definition first_line_title (page_text : pyval) : res string :=
  match page_text with
  | PyStr t =>
      match Str.splitlines (Str.strip t) with
      | [] => Raise IndexError
      | line :: _ => Ok (Str.upper (Str.strip line))
      end
  | _ => Raise AttributeError
  end.

(** [for i, page in enumerate(pages): if possible_title in page.upper(): ... break]
    with its [else:] branch; the result is the value stored. *)
Fixpoint search_pages (possible_title : string) (i : Z) (pages : list pyval)
    : res (option Z) :=
  match pages with
  | [] => Ok None
  | PyStr page :: rest =>
      if Str.contains possible_title (Str.upper page)
      then Ok (Some (i + 1))
      else search_pages possible_title (i + 1) rest
  | _ :: _ => Raise AttributeError
  end.

(** [for chapter in chapters:], from the dictionary [start_pages]. *)
Fixpoint resolve_from (start_pages : gmap string (option Z))
    (chapters : list pyval) (pages : list pyval)
    : res (gmap string (option Z)) :=
  match chapters with
  | [] => Ok start_pages
  | chapter :: rest =>
      bind (getitem0 chapter) (fun first_entry =>
        match first_entry with
        | PyTuple [page_index; page_text] =>
            bind (first_line_title page_text) (fun possible_title =>
            bind (search_pages possible_title 0 pages) (fun found =>
              resolve_from (<[possible_title := found]> start_pages) rest pages))
        | PyTuple _ => Raise ValueError
        | _ => resolve_from start_pages rest pages
        end)
  end.

Definition get_chapter_start_pages (chapters pages : list pyval)
    : res (gmap string (option Z)) :=
  resolve_from ∅ chapters pages.

(** * The vocabulary of the properties *)

(** Whether a heading is detected on a page text: the value of
    [matched] after the scan of its lines. *)
Definition has_heading (page_text : string) : bool :=
  snd (scan_lines init 0 page_text (Str.splitlines page_text)).

(** The title a line gives when it is a heading: one pass of the body
    of [for line in lines:]. *)
Definition heading_of (line : string) : option string :=
  let clean_line := Str.strip line in
  if Re.matches chapter_regex clean_line then Some clean_line
  else find_section section_patterns clean_line.

(** Page ranges [start..end] that are well formed, ascending and
    disjoint, and lie between [lo] and [hi]. *)
Fixpoint chain (lo hi : Z) (cs : list chapter) : Prop :=
  match cs with
  | [] => True
  | c :: cs' =>
      exists s, startPage c = Some s /\ lo <= s /\ s <= endPage c /\
                endPage c <= hi /\ chain (endPage c + 1) hi cs'
  end.




(** An entry of a page list names a string page of the input. *)
Definition page_ok (all : list pyval) (e : entry) : Prop :=
  0 <= fst e /\ all !! Z.to_nat (fst e) = Some (PyStr (snd e)).

Definition state_ok (all : list pyval) (st : state) : Prop :=
  Forall (page_ok all) (entries (current_chapter st)) /\
  Forall (fun c => Forall (page_ok all) (content c)) (chapters st).

(** The spec's word count, written from its words: the number of
    maximal runs of word characters (letters, digits, underscore), each
    run being delimited by word boundaries.  [inword] tells whether the
    character before [s] is a word character. *)
Fixpoint count_maximal_tokens (inword : bool) (s : string) : nat :=
  match s with
  | EmptyString => O
  | String c s' =>
      if Char.is_word c
      then ((if inword then 0 else 1) + count_maximal_tokens true s')%nat
      else count_maximal_tokens false s'
  end.

(** The text after the word characters [s] starts with, and their number. *)
Fixpoint drop_word (s : string) : string :=
  match s with
  | EmptyString => EmptyString
  | String c s' => if Char.is_word c then drop_word s' else s
  end.

Fixpoint run_length (s : string) : nat :=
  match s with
  | EmptyString => O
  | String c s' => if Char.is_word c then S (run_length s') else O
  end.

(** The continuation of [\w+] in [\b\w+\b]: the closing [\b]. *)
Definition closing_boundary : Re.cont :=
  fun p t => Re.run false Re.WordB p t (fun _ t' => Some t').

(** The first page, with text [t] and without heading, is kept: it is
    in the list being filled while no heading has been seen, and in the
    first chapter closed afterwards, which has no title and no start. *)
Definition preamble_kept (t : string) (st : state) : Prop :=
  (chapters st = [] /\ current_title st = None /\ current_start st = None /\
   exists l, current_chapter st = Some ((0, t) :: l)) \/
  (exists c cs, chapters st = c :: cs /\ title c = None /\
     startPage c = None /\ In (0, t) (content c)).

(** A text made of white space only (the empty text included). *)
Fixpoint all_space (s : string) : bool :=
  match s with
  | EmptyString => true
  | String c s' => Char.is_space c && all_space s'
  end.

(** A page that is a string whose upper case does not contain [t]. *)
Definition lacks (t : string) (page : pyval) : Prop :=
  exists s, page = PyStr s /\ Str.contains t (Str.upper s) = false.

(** ** [extract_text_by_page] *)

(** [extract_text_by_page], given the values [page.extract_text()]
    returns for the pages of the document, in order: a string is kept,
    anything else is replaced by the empty string. *)
Fixpoint extract_text_by_page (texts : list pyval) : list pyval :=
  match texts with
  | [] => []
  | PyStr text :: rest => PyStr text :: extract_text_by_page rest
  | _ :: rest => PyStr EmptyString :: extract_text_by_page rest
  end.

(** ** Further vocabulary *)

(** The string pages of a page sequence with their indices, from [i]. *)
Fixpoint string_pages (i : Z) (pages : list pyval) : list entry :=
  match pages with
  | [] => []
  | PyStr t :: rest => (i, t) :: string_pages (i + 1) rest
  | _ :: rest => string_pages (i + 1) rest
  end.

(** The title of the first heading line among [lines], if any. *)
Fixpoint first_heading (lines : list string) : option string :=
  match lines with
  | [] => None
  | line :: rest =>
      match heading_of line with
      | Some t => Some t
      | None => first_heading rest
      end
  end.

(** The heading a page text carries. *)
Definition page_heading (page_text : string) : option string :=
  first_heading (Str.splitlines page_text).

Definition no_heading (e : entry) : Prop := page_heading (snd e) = None.

(** What a title, a start and a page list look like together: with a
    start [s], the list begins with page [s], whose heading is the
    title, and goes on with pages without heading; without start there
    is no title and no page has a heading. *)
Definition well_formed (ttl : option string) (start : option Z)
    (ents : list entry) : Prop :=
  match start with
  | Some s => exists t rest, ents = (s, t) :: rest /\
                is_Some ttl /\ page_heading t = ttl /\ Forall no_heading rest
  | None => ttl = None /\ Forall no_heading ents
  end.

Definition chapter_wf (c : chapter) : Prop :=
  content c <> [] /\ well_formed (title c) (startPage c) (content c).

Definition state_wf (st : state) : Prop :=
  is_Some (current_chapter st) /\
  well_formed (current_title st) (current_start st)
    (entries (current_chapter st)) /\
  Forall chapter_wf (chapters st).

(** Every page entry held by a state of the scan. *)
Definition all_entries (st : state) : list entry :=
  flat_map content (chapters st) ++ entries (current_chapter st).

(** Chapters that cut the pages [lo..hi] into consecutive, non-empty
    ranges: each starts where the one before ended. *)
Fixpoint tiles (lo hi : Z) (cs : list chapter) : Prop :=
  match cs with
  | [] => lo = hi + 1
  | c :: cs' =>
      startPage c = Some lo /\ lo <= endPage c /\ tiles (endPage c + 1) hi cs'
  end.

(** The chapters tile the pages up to [hi], from the first heading
    page on; a first chapter without start page, if there is one, ends
    just before. *)
Definition covers (hi : Z) (cs : list chapter) : Prop :=
  (exists lo, 0 <= lo /\ tiles lo hi cs) \/
  (exists pre cs', cs = pre :: cs' /\ startPage pre = None /\
     tiles (endPage pre + 1) hi cs').

Record tiles_inv (st : state) (i : Z) : Prop := {
  tinv_index : 0 <= i;
  tinv_closed : truthy (current_chapter st) = false ->
                chapters st = [] /\ current_start st = None;
  tinv_nostart : current_start st = None -> chapters st = [];
  tinv_start : forall s, current_start st = Some s ->
               truthy (current_chapter st) = true /\ 0 <= s /\ s <= i - 1 /\
               covers (s - 1) (chapters st)
}.

(** [sub] occurs in [s]. *)
Definition occurs_in (sub s : string) : Prop :=
  exists a b, s = a +:+ (sub +:+ b).

(** What the mapping of [get_chapter_start_pages] holds is what the
    search over [pages] gives for each title. *)
Definition recorded (pages : list pyval) (m : gmap string (option Z)) : Prop :=
  forall (t : string) (v : option Z),
    m !! t = Some v -> search_pages t 0 pages = Ok v.

(** *** Chapter headings, read without the matcher *)

Fixpoint drop_while (q : ascii -> bool) (s : string) : string :=
  match s with
  | EmptyString => EmptyString
  | String c s' => if q c then drop_while q s' else s
  end.

(** What follows the keyword [l] at the start of [s], letter case
    ignored. *)
Fixpoint after_keyword (l s : string) : option string :=
  match l with
  | EmptyString => Some s
  | String a l' =>
      match s with
      | String c s' =>
          if Re.same_char true a c then after_keyword l' s' else None
      | EmptyString => None
      end
  end.

(** A non-empty run of [q]-characters that ends at a word boundary. *)
Definition token (q : ascii -> bool) (s : string) : bool :=
  match s with
  | String c s' => q c && negb (Re.word_after (drop_while q s'))
  | EmptyString => false
  end.

(** White space, then a number or a word. *)
Definition numbered (rest : string) : bool :=
  match rest with
  | String c r =>
      Char.is_space c &&
      (token Char.is_digit (drop_while Char.is_space r) ||
       token Char.is_alpha (drop_while Char.is_space r))
  | EmptyString => false
  end.

Definition is_chapter_heading (s : string) : bool :=
  match after_keyword "chapter" s with
  | Some rest => numbered rest
  | None => false
  end ||
  match after_keyword "book" s with
  | Some rest => numbered rest
  | None => false
  end.

Definition succeeds (r : option string) : bool :=
  match r with
  | Some _ => true
  | None => false
  end.

(** The end of the chapter pattern, [\b.*]. *)
Definition boundary_then_rest : Re.cont :=
  fun p t => Re.run true (Re.Seq Re.WordB (Re.Star Char.not_newline)) p t
               (fun _ t' => Some t').

(** What follows the keyword: [\s+], the number, [\b.*]. *)
Definition after_the_keyword : Re.cont :=
  fun p t =>
    Re.run true
      (Re.Seq (Re.Plus Char.is_space)
         (Re.Seq (Re.Alt (Re.Plus Char.is_digit)
                    (Re.Alt (Re.Plus (Char.in_range 97 122))
                            (Re.Plus (Char.one_of "ivxlcdm"))))
            (Re.Seq Re.WordB (Re.Star Char.not_newline))))
      p t (fun _ t' => Some t').

(** The first [n] characters of [s]. *)
Fixpoint take (n : nat) (s : string) : string :=
  match n, s with
  | S n', String c s' => String c (take n' s')
  | _, _ => EmptyString
  end.

(** The first four characters of a line, in lower case: enough to tell
    the patterns of the source apart. *)
Definition key (s : string) : string := Str.lower (take 4 s).

(** The labels of the sections with the keys of their patterns. *)
Definition label_keys : list (string * string) :=
  [ ("Prologue", "prol"); ("Epilogue", "epil"); ("Acknowledgements", "ackn");
    ("Dedication", "dedi"); ("Character List", "char");
    ("About the Author", "abou"); ("Also by the Author", "also");
    ("Thank You", "than") ].

(** Whether a text has a word character. *)
Fixpoint has_word_char (s : string) : bool :=
  match s with
  | EmptyString => false
  | String c s' => Char.is_word c || has_word_char s'
  end.

(** The number of entries whose page carries a heading. *)
Fixpoint count_headings (es : list entry) : nat :=
  match es with
  | [] => O
  | e :: es' =>
      match page_heading (snd e) with
      | Some _ => S (count_headings es')
      | None => count_headings es'
      end
  end.

(** The pages of a chapter lie in its range. *)
Definition within (lo : option Z) (hi : Z) (es : list entry) : Prop :=
  Forall (fun e => match lo with Some s => s <= fst e | None => True end /\
                   fst e <= hi) es.

Definition chapter_within (c : chapter) : Prop :=
  within (startPage c) (endPage c) (content c).

(** The title [get_chapter_start_pages] reads from a chapter, when it
    reads one. *)
Definition chapter_title (c : pyval) : option string :=
  match getitem0 c with
  | Ok (PyTuple [_; page_text]) =>
      match first_line_title page_text with
      | Ok t => Some t
      | Raise _ => None
      end
  | _ => None
  end.

Definition state_within (st : state) (i : Z) : Prop :=
  within (current_start st) (i - 1) (entries (current_chapter st)) /\
  Forall chapter_within (chapters st) /\
  (forall s, current_start st = Some s -> s <= i - 1).

(** *** ASCII texts and chapter boundaries *)

(** [s.isascii()]: every code point of [s] is below 128. *)
Fixpoint ascii_text (s : string) : bool :=
  match s with
  | EmptyString => true
  | String c s' => (Char.code c <? 128)%N && ascii_text s'
  end.



(** * Properties *)

(** ** Facts about the scan *)

Section Scan.

Lemma scan_lines_cases (st : state) (i : Z) (page_text : string)
    (lines : list string) :
  scan_lines st i page_text lines = (st, false) \/
  exists t, scan_lines st i page_text lines = (open_chapter st i page_text t, true).
Proof.
  induction lines as [|line rest IH]; cbn [scan_lines].
  - now left.
  - destruct (Re.matches chapter_regex (Str.strip line)).
    + right. now exists (Str.strip line).
    + destruct (find_section section_patterns (Str.strip line)) as [label|].
      * right. now exists label.
      * exact IH.
Qed.

(** What a page does to the state: nothing (not a string), an append
    (no heading), or a new chapter. *)
Lemma page_step_cases (st : state) (i : Z) (page : pyval) :
  page_step st i page = st \/
  (exists page_text, page = PyStr page_text /\
     page_step st i page = append_page st i page_text) \/
  (exists page_text t, page = PyStr page_text /\
     page_step st i page = open_chapter st i page_text t).
Proof.
  destruct page as [|z|page_text|items|items]; simpl; try now left.
  destruct (scan_lines_cases st i page_text (Str.splitlines page_text))
    as [E|[t E]]; rewrite E.
  - right. left. now exists page_text.
  - right. right. now exists page_text, t.
Qed.

Lemma truthy_snoc (l : list entry) (e : entry) : truthy (Some (l ++ [e])) = true.
Proof. destruct l; reflexivity. Qed.




End Scan.

(** ** The chapters of the example *)



(** ** Pages before the first heading *)

(** C1 (evaluation of the code).  The page ["Intro"] carries no heading
    and precedes the first heading page ["Chapter 1"], yet
    [split_chapters] returns it inside a first chapter whose title and
    start are [None]; and on a page sequence without any heading the
    result is that one chapter, not the empty list. *)
Theorem C1_preamble_pages_kept :
  has_heading "Intro" = false /\
  has_heading "Chapter 1" = true /\
  split_chapters [PyStr "Intro"; PyStr "Chapter 1"] =
    [ mkChapter None None 0 [(0, "Intro")];
      mkChapter (Some "Chapter 1") (Some 1) 1 [(1, "Chapter 1")] ] /\
  split_chapters [PyStr "Intro"] = [ mkChapter None None 0 [(0, "Intro")] ].
Proof. vm_compute. repeat split; reflexivity. Qed.

Section Preamble.

Variable t : string.

Lemma preamble_kept_page_step (st : state) (i : Z) (page : pyval) :
  preamble_kept t st -> preamble_kept t (page_step st i page).
Proof.
  intros H.
  destruct (page_step_cases st i page) as [E|[(p & _ & E)|(p & h & _ & E)]];
    rewrite E; clear E; trivial.
  - destruct H as [(Hc & Ht & Hs & l & Hl)|(c & cs & Hc & H)].
    + left. unfold append_page. rewrite Hl.
      cbn [chapters current_title current_start current_chapter].
      repeat split; trivial. now exists (l ++ [(i, p)]).
    + right. exists c, cs. split; trivial.
      unfold append_page. now destruct (current_chapter st).
  - right. destruct H as [(Hc & Ht & Hs & l & Hl)|(c & cs & Hc & H)];
      cbn [open_chapter chapters].
    + rewrite Hl, Hc, Ht, Hs. cbn [truthy entries app].
      eexists _, []. repeat split. now left.
    + rewrite Hc. exists c.
      destruct (truthy (current_chapter st)); eexists; split; trivial;
        reflexivity.
Qed.

Lemma preamble_kept_scan_pages (pages : list pyval) (st : state) (i : Z) :
  preamble_kept t st -> preamble_kept t (scan_pages st i pages).
Proof.
  revert st i.
  induction pages as [|page rest IH]; intros st i H; cbn [scan_pages]; trivial.
  apply IH. now apply preamble_kept_page_step.
Qed.

(** Whenever the first page carries no heading, it is returned in a
    first chapter without title and without start page. *)
Lemma preamble_chapter_returned (rest : list pyval) :
  has_heading t = false ->
  exists c cs, split_chapters (PyStr t :: rest) = c :: cs /\
    title c = None /\ startPage c = None /\ In (0, t) (content c).
Proof.
  intros Hh. unfold split_chapters. cbn [scan_pages].
  assert (H0 : preamble_kept t (page_step init 0 (PyStr t))).
  { cbn [page_step]. unfold has_heading in Hh.
    destruct (scan_lines_cases init 0 t (Str.splitlines t)) as [E|[h E]];
      rewrite E in Hh |- *; [|discriminate Hh].
    left. cbn. repeat split. now exists []. }
  pose proof (preamble_kept_scan_pages rest _ (0 + 1) H0) as H.
  unfold close_last.
  destruct H as [(Hc & Ht & Hs & l & Hl)|(c & cs & Hc & H)].
  - rewrite Hl, Hc, Ht, Hs. cbn [truthy entries app].
    eexists _, []. repeat split. now left.
  - rewrite Hc. exists c.
    destruct (truthy (current_chapter _)); eexists; split; trivial; reflexivity.
Qed.

End Preamble.

(** ** Page ranges *)

Section Ranges.










End Ranges.

(** C2 (evaluation of the code).  On the pages ["Intro"], ["Chapter 1"]
    the first chapter returned has no start page at all, so it does not
    satisfy startPage <= endPage and the list is not a chain of
    well-formed ranges. *)
Theorem C2_preamble_chapter_has_no_start :
  exists c cs,
    split_chapters [PyStr "Intro"; PyStr "Chapter 1"] = c :: cs /\
    startPage c = None /\ endPage c = 0 /\
    ~ chain 0 1 (split_chapters [PyStr "Intro"; PyStr "Chapter 1"]).
Proof.
  eexists _, _. split; [vm_compute; reflexivity|].
  repeat split. intros H.
  assert (E : split_chapters [PyStr "Intro"; PyStr "Chapter 1"] =
    [ mkChapter None None 0 [(0, "Intro")];
      mkChapter (Some "Chapter 1") (Some 1) 1 [(1, "Chapter 1")] ])
    by (vm_compute; reflexivity).
  rewrite E in H. destruct H as (s & Hs & _). discriminate Hs.
Qed.

(** ** Pages that are not strings *)

Section NonString.

Variable all : list pyval.

Lemma state_ok_init : state_ok all init.
Proof. split; constructor. Qed.

Lemma state_ok_open (st : state) (i : Z) (page_text t : string) :
  page_ok all (i, page_text) -> state_ok all st ->
  state_ok all (open_chapter st i page_text t).
Proof.
  intros Hp [Hc Hs]. split; cbn [open_chapter current_chapter chapters entries].
  - constructor; [exact Hp|constructor].
  - destruct (truthy (current_chapter st)); trivial.
    apply Forall_app. split; trivial. constructor; [exact Hc|constructor].
Qed.

Lemma state_ok_append (st : state) (i : Z) (page_text : string) :
  page_ok all (i, page_text) -> state_ok all st ->
  state_ok all (append_page st i page_text).
Proof.
  intros Hp [Hc Hs]. unfold append_page.
  destruct (current_chapter st) as [l|] eqn:Ec.
  - split; cbn [current_chapter chapters entries]; trivial.
    apply Forall_app. split; [exact Hc|constructor; [exact Hp|constructor]].
  - split; trivial. now rewrite Ec.
Qed.

Lemma state_ok_page_step (st : state) (i : Z) (page : pyval) :
  0 <= i -> all !! Z.to_nat i = Some page -> state_ok all st ->
  state_ok all (page_step st i page).
Proof.
  intros Hi Hl H.
  destruct (page_step_cases st i page) as [E|[(t & -> & E)|(t & h & -> & E)]];
    rewrite E; trivial.
  - apply state_ok_append; trivial. now split.
  - apply state_ok_open; trivial. now split.
Qed.

Lemma state_ok_scan_pages (rest done : list pyval) (st : state) :
  all = done ++ rest -> state_ok all st ->
  state_ok all (scan_pages st (Z.of_nat (length done)) rest).
Proof.
  revert done st.
  induction rest as [|page rest IH]; intros done st Hall H; cbn [scan_pages].
  - exact H.
  - replace (Z.of_nat (length done) + 1) with (Z.of_nat (length (done ++ [page])))
      by (rewrite length_app; simpl; lia).
    apply IH.
    + now rewrite <- app_assoc.
    + apply state_ok_page_step; trivial; [lia|].
      rewrite Nat2Z.id, Hall. apply list_lookup_middle. reflexivity.
Qed.

End NonString.

Lemma split_chapters_entries (pages : list pyval) :
  Forall (fun c => Forall (page_ok pages) (content c)) (split_chapters pages).
Proof.
  destruct (state_ok_scan_pages pages pages [] init eq_refl (state_ok_init pages))
    as [Hc Hs].
  unfold split_chapters, close_last. change (Z.of_nat (length [])) with 0 in *.
  destruct (truthy (current_chapter (scan_pages init 0 pages))); trivial.
  apply Forall_app. split; trivial. constructor; [exact Hc|constructor].
Qed.

(** C3 (what the code does instead).  With the open chapter
    ["Chapter 1"], the non-string page at index 1 is not appended: the
    chapter's page list is [(0, _); (2, _)], whereas an empty-string
    page at the same place is appended as [(1, "")]. *)
Lemma C3_non_string_page_not_appended :
  split_chapters [PyStr "Chapter 1"; PyNone; PyStr "More"] =
    [ mkChapter (Some "Chapter 1") (Some 0) 2
        [(0, "Chapter 1"); (2, "More")] ] /\
  split_chapters [PyStr "Chapter 1"; PyStr ""; PyStr "More"] =
    [ mkChapter (Some "Chapter 1") (Some 0) 2
        [(0, "Chapter 1"); (1, ""); (2, "More")] ] /\
  split_chapters [PyStr "Chapter 1"; PyNone; PyStr "More"] <>
    split_chapters [PyStr "Chapter 1"; PyStr ""; PyStr "More"].
Proof.
  assert (E1 : split_chapters [PyStr "Chapter 1"; PyNone; PyStr "More"] =
    [ mkChapter (Some "Chapter 1") (Some 0) 2
        [(0, "Chapter 1"); (2, "More")] ]) by (vm_compute; reflexivity).
  assert (E2 : split_chapters [PyStr "Chapter 1"; PyStr ""; PyStr "More"] =
    [ mkChapter (Some "Chapter 1") (Some 0) 2
        [(0, "Chapter 1"); (1, ""); (2, "More")] ]) by (vm_compute; reflexivity).
  repeat split; trivial. rewrite E1, E2. discriminate.
Qed.

(** C3 (amended).  A page that is not a string is skipped by
    [split_chapters]: it leaves the whole scan state as it was (no
    heading match, no chapter opened or closed, nothing appended), so
    every entry [(i, text)] of every chapter returned is a string page
    of the input, the one at index [i]. *)
Theorem C3_non_string_page_skipped :
  (forall (st : state) (i : Z) (page : pyval),
     (forall s, page <> PyStr s) -> page_step st i page = st) /\
  (forall (pages : list pyval) (c : chapter) (i : Z) (t : string),
     In c (split_chapters pages) -> In (i, t) (content c) ->
     0 <= i /\ pages !! Z.to_nat i = Some (PyStr t)).
Proof.
  split.
  - intros st i page H. destruct page; try reflexivity. now destruct (H s).
  - intros pages c i t Hc He.
    pose proof (split_chapters_entries pages) as H.
    rewrite Forall_forall in H. apply list_elem_of_In in Hc.
    specialize (H c Hc). rewrite Forall_forall in H.
    apply list_elem_of_In in He. exact (H (i, t) He).
Qed.

Lemma C3_non_string_page_skipped_witness :
  page_step init 1 PyNone = init /\
  (0 <= 2 /\
   [PyStr "Chapter 1"; PyNone; PyStr "More"] !! Z.to_nat 2 = Some (PyStr "More")).
Proof.
  split.
  - apply (proj1 C3_non_string_page_skipped). discriminate.
  - apply (proj2 C3_non_string_page_skipped
             [PyStr "Chapter 1"; PyNone; PyStr "More"]
             (mkChapter (Some "Chapter 1") (Some 0) 2
                [(0, "Chapter 1"); (2, "More")])).
    + vm_compute. left. reflexivity.
    + simpl. right. left. reflexivity.
Defined.

(** ** Headings *)

Section Headings.

Lemma scan_lines_cons (st : state) (i : Z) (page_text line : string)
    (rest : list string) :
  scan_lines st i page_text (line :: rest) =
  match heading_of line with
  | Some t => (open_chapter st i page_text t, true)
  | None => scan_lines st i page_text rest
  end.
Proof.
  unfold heading_of. cbn [scan_lines].
  destruct (Re.matches chapter_regex (Str.strip line)); [reflexivity|].
  destruct (find_section section_patterns (Str.strip line)); reflexivity.
Qed.






End Headings.






(** ** Chapter boundaries *)

Section Boundary.







End Boundary.



(** ** Word count *)

Section WordCount.

Lemma length_run_drop (s : string) :
  String.length s = (run_length s + String.length (drop_word s))%nat.
Proof.
  induction s as [|c s IH]; simpl; trivial.
  destruct (Char.is_word c); simpl; lia.
Qed.

Lemma greedy_word (s : string) (prev : option ascii) :
  Re.word_before prev = true ->
  Re.greedy (Re.in_class false Char.is_word) prev s closing_boundary =
    Some (drop_word s).
Proof.
  revert prev.
  induction s as [|c s IH]; intros prev Hp; cbn [Re.greedy drop_word].
  - unfold closing_boundary. cbn. now rewrite Hp.
  - unfold Re.in_class at 1. cbn [andb]. rewrite orb_false_r.
    destruct (Char.is_word c) eqn:Ec.
    + rewrite IH by exact Ec. reflexivity.
    + unfold closing_boundary. cbn. now rewrite Hp, Ec.
Qed.

(** One attempt of [\b\w+\b]: it succeeds exactly at the start of a
    run of word characters, and consumes the whole run. *)
Lemma match_at_word (prev : option ascii) (s : string) :
  Re.match_at word_pattern prev s =
  if negb (Re.word_before prev) && Re.word_after s
  then Some (drop_word s) else None.
Proof.
  unfold Re.match_at, word_pattern. cbn [Re.expr Re.ignorecase Re.run].
  destruct s as [|c s].
  - cbn. now destruct (Re.word_before prev).
  - cbn [Re.word_after drop_word].
    unfold Re.in_class at 1. cbn [andb]. rewrite orb_false_r.
    destruct (Char.is_word c) eqn:Ec.
    + destruct (Re.word_before prev); cbn; trivial.
      exact (greedy_word s (Some c) Ec).
    + now destruct (Re.word_before prev).
Qed.

Lemma findall_count_word (s : string) :
  (forall prev, Re.findall_count word_pattern O prev s =
                count_maximal_tokens (Re.word_before prev) s) /\
  (forall prev, Re.word_before prev = true ->
                Re.findall_count word_pattern (run_length s) prev s =
                count_maximal_tokens true s).
Proof.
  induction s as [|c s [IHB IHA]].
  - split; intros prev; cbn [Re.findall_count run_length count_maximal_tokens];
      rewrite match_at_word; cbn; now rewrite andb_false_r.
  - assert (B : forall prev,
        Re.findall_count word_pattern O prev (String c s) =
        count_maximal_tokens (Re.word_before prev) (String c s)).
    { intros prev. cbn [Re.findall_count count_maximal_tokens].
      rewrite match_at_word. cbn [Re.word_after drop_word].
      destruct (Char.is_word c) eqn:Ec.
      - destruct (Re.word_before prev); cbn [negb andb].
        + rewrite IHB. cbn. now rewrite Ec.
        + replace (Nat.pred (String.length (String c s) - String.length (drop_word s)))
            with (run_length s)
            by (cbn [String.length]; pose proof (length_run_drop s); lia).
          rewrite IHA by (cbn; exact Ec). reflexivity.
      - rewrite andb_false_r, IHB. cbn. now rewrite Ec. }
    split; [exact B|].
    intros prev Hp. cbn [run_length].
    destruct (Char.is_word c) eqn:Ec.
    + cbn [Re.findall_count count_maximal_tokens]. rewrite Ec.
      apply IHA. cbn. exact Ec.
    + rewrite B, Hp. reflexivity.
Qed.

Lemma count_words_tokens (text : string) :
  count_words text = count_maximal_tokens false text.
Proof. exact (proj1 (findall_count_word text) None). Qed.

End WordCount.

(** ** Chapter statistics *)

Section Analyze.

Lemma chapter_rows_length (chs : list chapter) (i : Z) :
  length (chapter_rows i chs) = length chs.
Proof.
  revert i. induction chs as [|c chs IH]; intros i; simpl; [|rewrite IH];
    reflexivity.
Qed.

Lemma chapter_rows_lookup (chs : list chapter) (i : Z) (k : nat) (c : chapter) :
  chs !! k = Some c ->
  chapter_rows i chs !! k =
    Some match chapter_row (i + Z.of_nat k) c with
         | Ok r => r
         | Raise _ => placeholder_row (i + Z.of_nat k) c
         end.
Proof.
  revert i k.
  induction chs as [|c0 chs IH]; intros i k H; [discriminate|].
  destruct k as [|k]; cbn [chapter_rows].
  - injection H as ->. replace (i + Z.of_nat 0) with i by lia. reflexivity.
  - replace (i + Z.of_nat (S k)) with (i + 1 + Z.of_nat k) by lia.
    exact (IH (i + 1) k H).
Qed.

Lemma chapter_row_raises (i : Z) (c : chapter) :
  (exists e, chapter_row i c = Raise e) <-> startPage c = None.
Proof.
  unfold chapter_row. destruct (startPage c); simpl; split; intros H.
  - destruct H as [e H]. discriminate.
  - discriminate.
  - reflexivity.
  - now exists TypeError.
Qed.

End Analyze.



(** C8.  The loop returns one row per chapter, at the chapter's
    1-based position.  A chapter whose processing raises (which
    happens exactly when it has no start page) gets the row with "?"
    for the start page, the end page and the page count and 0 words;
    every other chapter gets its computed row, whatever happened to
    the chapters before it. *)
Theorem C8_failed_chapter_keeps_its_place :
  forall chs : list chapter,
    fst (analyze_chapters chs) = length chs /\
    length (snd (analyze_chapters chs)) = length chs /\
    forall (k : nat) (c : chapter),
      chs !! k = Some c ->
      ((exists e, chapter_row (1 + Z.of_nat k) c = Raise e) <-> startPage c = None) /\
      (forall e, chapter_row (1 + Z.of_nat k) c = Raise e ->
         snd (analyze_chapters chs) !! k =
           Some (Stat.mk (1 + Z.of_nat k) (title c) Unknown Unknown Unknown 0)) /\
      (forall r, chapter_row (1 + Z.of_nat k) c = Ok r ->
         snd (analyze_chapters chs) !! k = Some r /\
         Stat.chapter r = 1 + Z.of_nat k).
Proof.
  intros chs. unfold analyze_chapters. cbn [fst snd].
  rewrite chapter_rows_length. repeat split; trivial.
  - apply chapter_row_raises.
  - apply chapter_row_raises.
  - intros e He. rewrite (chapter_rows_lookup chs 1 k c H), He. reflexivity.
  - rewrite (chapter_rows_lookup chs 1 k c H), H0. reflexivity.
  - unfold chapter_row in H0. destruct (startPage c); simpl in H0; [|discriminate].
    now injection H0 as <-.
Qed.

Lemma C8_failed_chapter_keeps_its_place_witness :
  snd (analyze_chapters (split_chapters [PyStr "Intro"; PyStr "Chapter 1"])) !! 0%nat =
    Some (Stat.mk 1 None Unknown Unknown Unknown 0) /\
  snd (analyze_chapters (split_chapters [PyStr "Intro"; PyStr "Chapter 1"])) !! 1%nat =
    Some (Stat.mk 2 (Some "Chapter 1") (Num 2) (Num 2) (Num 1) 2).
Proof.
  pose proof (C8_failed_chapter_keeps_its_place
                (split_chapters [PyStr "Intro"; PyStr "Chapter 1"])) as (_ & _ & H).
  split.
  - apply (proj1 (proj2 (H 0%nat (mkChapter None None 0 [(0, "Intro")])
                           ltac:(vm_compute; reflexivity))) TypeError).
    vm_compute. reflexivity.
  - apply (proj2 (proj2 (H 1%nat (mkChapter (Some "Chapter 1") (Some 1) 1 [(1, "Chapter 1")])
                           ltac:(vm_compute; reflexivity)))).
    vm_compute. reflexivity.
Defined.

(** ** The start pages of the chapters *)

Section Resolver.

Lemma resolve_from_app (m : gmap string (option Z)) (a b pages : list pyval) :
  resolve_from m (a ++ b) pages =
  bind (resolve_from m a pages) (fun m' => resolve_from m' b pages).
Proof.
  revert m.
  induction a as [|c a IH]; intros m; cbn [app resolve_from bind]; trivial.
  destruct (getitem0 c) as [v|e]; cbn [bind]; trivial.
  destruct v as [| | |items|]; trivial.
  destruct items as [|x [|y [|z items]]]; trivial.
  destruct (first_line_title y) as [t|e]; cbn [bind]; trivial.
  destruct (search_pages t 0 pages) as [r|e]; cbn [bind]; trivial.
Qed.

(** On the chapters of [split_chapters], element 0 is the title, never
    a tuple: every chapter is passed over. *)
Lemma resolve_from_split_chapters (m : gmap string (option Z))
    (chs : list chapter) (pages : list pyval) :
  resolve_from m (map chapter_value chs) pages = Ok m.
Proof.
  induction chs as [|c chs IH]; cbn [map resolve_from]; trivial.
  unfold chapter_value at 1. cbn [getitem0 bind].
  destruct (title c); exact IH.
Qed.

Lemma search_pages_found (t : string) (pre : list pyval) (p : string)
    (post : list pyval) (i : Z) :
  Forall (lacks t) pre -> Str.contains t (Str.upper p) = true ->
  search_pages t i (pre ++ PyStr p :: post) = Ok (Some (i + Z.of_nat (length pre) + 1)).
Proof.
  intros H Hp. revert i.
  induction H as [|q pre (s & -> & Hs) _ IH]; intros i; cbn [app search_pages].
  - rewrite Hp. do 2 f_equal. simpl. lia.
  - rewrite Hs, IH. do 2 f_equal. cbn [length]. lia.
Qed.

Lemma search_pages_absent (t : string) (pages : list pyval) (i : Z) :
  Forall (lacks t) pages -> search_pages t i pages = Ok None.
Proof.
  intros H. revert i.
  induction H as [|q pages (s & -> & Hs) _ IH]; intros i; cbn [search_pages];
    trivial.
  now rewrite Hs.
Qed.

Lemma strip_all_space (s : string) : all_space s = true -> Str.strip s = EmptyString.
Proof.
  unfold Str.strip. induction s as [|c s IH]; cbn [all_space Str.lstrip]; trivial.
  intros [Hc Hs]%andb_prop. rewrite Hc. now apply IH.
Qed.

(** A chapter given as a sequence of [(index, text)] entries, the shape
    the function reads: the title found on its first page is recorded
    with the number of the first page of the document containing it, or
    with [None], replacing whatever an earlier chapter recorded under
    the same title. *)
Lemma resolve_from_entries (m m' : gmap string (option Z))
    (chs : list pyval) (c page_index : pyval) (page_text t : string)
    (pages : list pyval) (found : option Z) :
  resolve_from m chs pages = Ok m' ->
  getitem0 c = Ok (PyTuple [page_index; PyStr page_text]) ->
  first_line_title (PyStr page_text) = Ok t ->
  search_pages t 0 pages = Ok found ->
  resolve_from m (chs ++ [c]) pages = Ok (<[t := found]> m') /\
  (<[t := found]> m') !! t = Some found.
Proof.
  intros Hm Hc Ht Hf. split; [|apply lookup_insert_eq].
  rewrite resolve_from_app, Hm. cbn [bind resolve_from].
  rewrite Hc. cbn [bind]. rewrite Ht. cbn [bind]. now rewrite Hf.
Qed.

End Resolver.

(** C9 (evaluation of the code).  On the chapters that
    [split_chapters] returns, element 0 of a chapter is its title, not
    a page entry, so the chapter is passed over: for the one-page
    document ["Chapter 1"] the mapping returned is empty and holds
    nothing under "CHAPTER 1" (the same for every document). *)
Theorem C9_resolver_skips_segmented_chapters :
  get_chapter_start_pages
    (map chapter_value (split_chapters [PyStr "Chapter 1"])) [PyStr "Chapter 1"]
    = Ok ∅ /\
  (∅ : gmap string (option Z)) !! "CHAPTER 1" = None /\
  first_line_title (PyStr "Chapter 1") = Ok "CHAPTER 1" /\
  search_pages "CHAPTER 1" 0 [PyStr "Chapter 1"] = Ok (Some 1) /\
  forall pages : list pyval,
    get_chapter_start_pages (map chapter_value (split_chapters pages)) pages = Ok ∅.
Proof.
  split; [exact (resolve_from_split_chapters ∅ _ _)|].
  split; [apply lookup_empty|].
  split; [vm_compute; reflexivity|].
  split; [vm_compute; reflexivity|].
  intros pages. exact (resolve_from_split_chapters ∅ _ _).
Qed.

(** C10.  A chapter whose first element is an [(index, text)] entry
    with an empty or all-white-space text makes
    [get_chapter_start_pages] raise IndexError (the first line of a
    text without lines is taken), whatever the chapters after it, as
    soon as the chapters before it went through. *)
Theorem C10_blank_first_page_raises :
  forall (chapters pages pre post : list pyval) (c page_index : pyval)
         (page_text : string) (m : gmap string (option Z)),
    chapters = pre ++ c :: post ->
    resolve_from ∅ pre pages = Ok m ->
    getitem0 c = Ok (PyTuple [page_index; PyStr page_text]) ->
    all_space page_text = true ->
    get_chapter_start_pages chapters pages = Raise IndexError.
Proof.
  intros chapters pages pre post c page_index page_text m -> Hm Hc Hs.
  unfold get_chapter_start_pages.
  rewrite resolve_from_app, Hm. cbn [bind resolve_from].
  rewrite Hc. cbn [bind first_line_title].
  rewrite (strip_all_space _ Hs). reflexivity.
Qed.

Lemma C10_blank_first_page_raises_witness :
  get_chapter_start_pages
    [ PyList [PyTuple [PyInt 0; PyStr "Chapter 1"]];
      PyList [PyTuple [PyInt 1; PyStr "   "]];
      PyList [PyTuple [PyInt 2; PyStr "Chapter 2"]] ]
    [PyStr "Chapter 1"; PyStr "   "; PyStr "Chapter 2"]
  = Raise IndexError.
Proof.
  apply (C10_blank_first_page_raises _ _
           [PyList [PyTuple [PyInt 0; PyStr "Chapter 1"]]]
           [PyList [PyTuple [PyInt 2; PyStr "Chapter 2"]]]
           (PyList [PyTuple [PyInt 1; PyStr "   "]]) (PyInt 1) "   "
           (<["CHAPTER 1" := Some 1]> ∅)).
  - reflexivity.
  - reflexivity.
  - reflexivity.
  - reflexivity.
Defined.

(** * Further properties of the code *)

(** ** Where the pages go *)

Section AllPages.

Lemma page_step_heading (st : state) (i : Z) (page_text : string) :
  page_step st i (PyStr page_text) =
  match page_heading page_text with
  | Some t => open_chapter st i page_text t
  | None => append_page st i page_text
  end.
Proof.
  unfold page_heading. cbn [page_step].
  assert (E : forall lines, scan_lines st i page_text lines =
    match first_heading lines with
    | Some t => (open_chapter st i page_text t, true)
    | None => (st, false)
    end).
  { induction lines as [|line rest IH]; [reflexivity|].
    rewrite scan_lines_cons. cbn [first_heading].
    now destruct (heading_of line). }
  rewrite E. now destruct (first_heading (Str.splitlines page_text)).
Qed.

Lemma falsy_entries (l : list entry) : truthy (Some l) = false -> l = [].
Proof. destruct l; [reflexivity|discriminate]. Qed.

Lemma all_entries_page_step (st : state) (i : Z) (page : pyval) :
  is_Some (current_chapter st) ->
  is_Some (current_chapter (page_step st i page)) /\
  all_entries (page_step st i page) = all_entries st ++ string_pages i [page].
Proof.
  intros [l Hl].
  destruct page as [|z|t|items|items]; cbn [string_pages];
    try (rewrite app_nil_r; split; [now exists l|reflexivity]).
  rewrite page_step_heading. destruct (page_heading t) as [h|].
  - split; [now eexists|]. unfold all_entries.
    cbn [open_chapter chapters current_chapter entries]. rewrite Hl.
    destruct (truthy (Some l)) eqn:Et.
    + rewrite flat_map_app. cbn [flat_map content entries].
      now rewrite app_nil_r.
    + apply falsy_entries in Et. subst l. cbn [entries]. now rewrite app_nil_r.
  - unfold append_page. rewrite Hl. split; [now eexists|].
    unfold all_entries. cbn [chapters current_chapter entries].
    rewrite Hl. cbn [entries]. now rewrite app_assoc.
Qed.

Lemma all_entries_scan_pages (pages : list pyval) (st : state) (i : Z) :
  is_Some (current_chapter st) ->
  all_entries (scan_pages st i pages) = all_entries st ++ string_pages i pages.
Proof.
  revert st i.
  induction pages as [|page rest IH]; intros st i H; cbn [scan_pages].
  - cbn. now rewrite app_nil_r.
  - destruct (all_entries_page_step st i page H) as [H' E].
    rewrite (IH _ _ H'), E, <- app_assoc. f_equal.
    destruct page; reflexivity.
Qed.

Lemma all_entries_close_last (st : state) (n : Z) :
  is_Some (current_chapter st) ->
  flat_map content (close_last st n) = all_entries st.
Proof.
  intros [l Hl]. unfold close_last, all_entries. rewrite Hl.
  destruct (truthy (Some l)) eqn:Et.
  - rewrite flat_map_app. cbn [flat_map content entries]. now rewrite app_nil_r.
  - apply falsy_entries in Et. subst l. cbn [entries]. now rewrite app_nil_r.
Qed.

End AllPages.

Lemma split_chapters_content (pages : list pyval) :
  flat_map content (split_chapters pages) = string_pages 0 pages.
Proof.
  unfold split_chapters.
  assert (H0 : is_Some (current_chapter init)) by (now eexists).
  assert (G : forall ps st i, is_Some (current_chapter st) ->
              is_Some (current_chapter (scan_pages st i ps))).
  { induction ps as [|q ps IH]; intros st i H; cbn [scan_pages]; trivial.
    apply IH. now apply all_entries_page_step. }
  pose proof (G pages init 0 H0) as H.
  rewrite (all_entries_close_last _ _ H), (all_entries_scan_pages _ _ _ H0).
  reflexivity.
Qed.

(** X1.  Put end to end, the page lists of the chapters returned by
    [split_chapters] are exactly the string pages of the input with
    their indices, in order: no string page is lost, none is listed
    twice, and this includes the pages before the first heading. *)
Theorem X1_every_string_page_in_one_chapter :
  forall pages : list pyval,
    flat_map content (split_chapters pages) = string_pages 0 pages.
Proof. exact split_chapters_content. Qed.

(** ** The shape of a chapter *)

Section ChapterShape.

Lemma state_wf_init : state_wf init.
Proof.
  split; [now eexists|]. split; [|constructor].
  split; [reflexivity|constructor].
Qed.

Lemma well_formed_snoc (ttl : option string) (start : option Z)
    (ents : list entry) (e : entry) :
  well_formed ttl start ents -> no_heading e -> well_formed ttl start (ents ++ [e]).
Proof.
  unfold well_formed. destruct start as [s|].
  - intros (t & rest & -> & Ht & Hh & Hr) He.
    exists t, (rest ++ [e]). repeat split; trivial.
    apply Forall_app. split; trivial. now constructor.
  - intros [Ht Hr] He. split; trivial.
    apply Forall_app. split; trivial. now constructor.
Qed.

Lemma state_wf_page_step (st : state) (i : Z) (page : pyval) :
  state_wf st -> state_wf (page_step st i page).
Proof.
  intros ([l Hl] & Hw & Hc).
  destruct page as [|z|t|items|items]; try (split; [now exists l|now split]).
  rewrite page_step_heading. destruct (page_heading t) as [h|] eqn:Eh.
  - split; [now eexists|]. cbn [open_chapter current_chapter current_title
      current_start chapters entries]. split.
    + exists t, []. split; [reflexivity|]. split; [now eexists|].
      split; [exact Eh|constructor].
    + destruct (truthy (current_chapter st)) eqn:Et; trivial.
      apply Forall_app. split; trivial. constructor; [|constructor].
      split; trivial. cbn [content]. rewrite Hl in Et |- *.
      destruct l; [discriminate Et|discriminate].
  - unfold append_page. rewrite Hl. split; [now eexists|].
    cbn [current_chapter current_title current_start chapters entries].
    split; trivial. rewrite Hl in Hw. now apply well_formed_snoc.
Qed.

Lemma state_wf_scan_pages (pages : list pyval) (st : state) (i : Z) :
  state_wf st -> state_wf (scan_pages st i pages).
Proof.
  revert st i.
  induction pages as [|page rest IH]; intros st i H; cbn [scan_pages]; trivial.
  apply IH. now apply state_wf_page_step.
Qed.

Lemma split_chapters_wf (pages : list pyval) :
  Forall chapter_wf (split_chapters pages).
Proof.
  destruct (state_wf_scan_pages pages init 0 state_wf_init) as ([l Hl] & Hw & Hc).
  unfold split_chapters, close_last.
  destruct (truthy (current_chapter (scan_pages init 0 pages))) eqn:Et; trivial.
  apply Forall_app. split; trivial. constructor; [|constructor].
  split; trivial. cbn [content]. rewrite Hl in Et |- *.
  destruct l; [discriminate Et|discriminate].
Qed.

End ChapterShape.

(** X2.  Every chapter returned by [split_chapters] has a non-empty
    page list.  When it has a start page, the list begins with that
    page, the title is the heading of that page, and no later page of
    the chapter carries a heading; when it has none, it has no title
    and none of its pages carries a heading. *)
Theorem X2_chapter_begins_at_its_heading :
  forall (pages : list pyval) (c : chapter),
    In c (split_chapters pages) ->
    content c <> [] /\
    match startPage c with
    | Some s =>
        exists t rest, content c = (s, t) :: rest /\
          is_Some (title c) /\ page_heading t = title c /\
          Forall (fun e => page_heading (snd e) = None) rest
    | None =>
        title c = None /\
        Forall (fun e => page_heading (snd e) = None) (content c)
    end.
Proof.
  intros pages c Hc.
  pose proof (split_chapters_wf pages) as H.
  rewrite Forall_forall in H. apply list_elem_of_In in Hc.
  exact (H c Hc).
Qed.

Lemma X2_chapter_begins_at_its_heading_witness :
  [(0, "Chapter One" +:+ Str.nl +:+ "Text A"); (1, "More text")] <> [] /\
  exists t rest,
    [(0, "Chapter One" +:+ Str.nl +:+ "Text A"); (1, "More text")] = (0, t) :: rest /\
    is_Some (Some "Chapter One") /\ page_heading t = Some "Chapter One" /\
    Forall (fun e => page_heading (snd e) = None) rest.
Proof.
  apply (X2_chapter_begins_at_its_heading ex_pages
           (mkChapter (Some "Chapter One") (Some 0) 1
              [(0, "Chapter One" +:+ Str.nl +:+ "Text A"); (1, "More text")])).
  vm_compute. left. reflexivity.
Defined.

(** ** Consecutive ranges *)

Section Tiles.

Lemma tiles_snoc (lo hi : Z) (cs : list chapter) (c : chapter) :
  tiles lo hi cs -> startPage c = Some (hi + 1) -> hi + 1 <= endPage c ->
  tiles lo (endPage c) (cs ++ [c]).
Proof.
  revert lo.
  induction cs as [|c0 cs IH]; intros lo Hc Hs He; cbn [app tiles] in *.
  - subst lo. repeat split; trivial.
  - destruct Hc as (H1 & H2 & H3). repeat split; trivial. now apply IH.
Qed.

Lemma covers_snoc (hi : Z) (cs : list chapter) (c : chapter) :
  covers hi cs -> startPage c = Some (hi + 1) -> hi + 1 <= endPage c ->
  covers (endPage c) (cs ++ [c]).
Proof.
  intros [(lo & H0 & Ht)|(pre & cs' & -> & Hp & Ht)] Hs He.
  - left. exists lo. split; trivial. now apply tiles_snoc with (hi := hi).
  - right. exists pre, (cs' ++ [c]). repeat split; trivial.
    now apply tiles_snoc with (hi := hi).
Qed.

Lemma tiles_inv_init : tiles_inv init 0.
Proof. split; simpl; try easy; lia. Qed.

Lemma tiles_inv_open (st : state) (i : Z) (page_text t : string) :
  tiles_inv st i -> tiles_inv (open_chapter st i page_text t) (i + 1).
Proof.
  intros [H0 Hb Hc Hd]. split; simpl; try easy; try lia.
  intros s [= <-]. repeat split; try lia.
  destruct (truthy (current_chapter st)) eqn:Et.
  - destruct (current_start st) as [s0|] eqn:Es.
    + destruct (Hd s0 eq_refl) as (_ & Hs0 & Hs1 & Hr).
      replace (i - 1) with
        (endPage (mkChapter (current_title st) (Some s0) (i - 1)
                    (entries (current_chapter st)))) at 1 by reflexivity.
      apply covers_snoc with (hi := s0 - 1); simpl; trivial; try lia.
      f_equal. lia.
    + rewrite (Hc eq_refl). right. simpl.
      eexists _, []. repeat split; simpl; trivial; lia.
  - destruct (Hb eq_refl) as [-> _]. left. exists i. split; [lia|simpl; lia].
Qed.

Lemma tiles_inv_append (st : state) (i : Z) (page_text : string) :
  tiles_inv st i -> tiles_inv (append_page st i page_text) (i + 1).
Proof.
  intros [H0 Hb Hc Hd]. unfold append_page.
  destruct (current_chapter st) as [l|] eqn:Ec.
  - split; cbn [current_chapter chapters current_title current_start];
      trivial; try lia.
    + rewrite truthy_snoc. discriminate.
    + intros s Hs. destruct (Hd s Hs) as (_ & ? & ? & ?).
      rewrite truthy_snoc. repeat split; trivial; lia.
  - split; trivial; try lia; rewrite ?Ec; trivial.
    intros s Hs. destruct (Hd s Hs) as (? & ? & ? & ?).
    repeat split; trivial; lia.
Qed.

Lemma tiles_inv_skip (st : state) (i : Z) :
  tiles_inv st i -> tiles_inv st (i + 1).
Proof.
  intros [H0 Hb Hc Hd]. split; trivial; try lia.
  intros s Hs. destruct (Hd s Hs) as (? & ? & ? & ?).
  repeat split; trivial; lia.
Qed.

Lemma tiles_inv_scan_pages (pages : list pyval) (st : state) (i : Z) :
  tiles_inv st i ->
  tiles_inv (scan_pages st i pages) (i + Z.of_nat (length pages)).
Proof.
  revert st i.
  induction pages as [|page rest IH]; intros st i H.
  - cbn [scan_pages length]. now replace (i + Z.of_nat 0) with i by lia.
  - cbn [scan_pages length].
    replace (i + Z.of_nat (S (length rest)))
      with ((i + 1) + Z.of_nat (length rest)) by lia.
    apply IH.
    destruct (page_step_cases st i page) as [E|[(t & _ & E)|(t & h & _ & E)]];
      rewrite E.
    + now apply tiles_inv_skip.
    + now apply tiles_inv_append.
    + now apply tiles_inv_open.
Qed.

End Tiles.

Lemma split_chapters_covers (pages : list pyval) :
  covers (Z.of_nat (length pages) - 1) (split_chapters pages).
Proof.
  unfold split_chapters, close_last.
  pose proof (tiles_inv_scan_pages pages init 0 tiles_inv_init) as H.
  simpl in H. set (st := scan_pages init 0 pages) in *.
  set (n := Z.of_nat (length pages)) in *.
  destruct H as [H0 Hb Hc Hd].
  destruct (truthy (current_chapter st)) eqn:Et.
  - destruct (current_start st) as [s|] eqn:Es.
    + destruct (Hd s eq_refl) as (_ & Hs0 & Hs1 & Hr).
      replace (n - 1) with
        (endPage (mkChapter (current_title st) (Some s) (n - 1)
                    (entries (current_chapter st)))) at 1 by reflexivity.
      apply covers_snoc with (hi := s - 1); simpl; trivial; try lia.
      f_equal. lia.
    + rewrite (Hc eq_refl). right. simpl.
      eexists _, []. repeat split; simpl; trivial.
  - destruct (Hb eq_refl) as [-> _]. left. exists n. split; [lia|simpl; lia].
Qed.


Section NoChapter.

Lemma string_pages_nil (pages : list pyval) (i : Z) :
  string_pages i pages = [] <-> Forall (fun p => forall s, p <> PyStr s) pages.
Proof.
  revert i. induction pages as [|p pages IH]; intros i.
  - split; [constructor|reflexivity].
  - destruct p; cbn [string_pages];
      try (rewrite IH; split;
           [intros H; constructor; [discriminate|exact H]
           |intros H; now inversion H]).
    split; [discriminate|]. intros H. inversion H as [|? ? Hp _].
    now destruct (Hp s).
Qed.

Lemma flat_map_content_nil (cs : list chapter) :
  Forall chapter_wf cs -> flat_map content cs = [] -> cs = [].
Proof.
  intros H E. destruct H as [|c cs [Hc _] _]; trivial.
  cbn [flat_map] in E. apply app_eq_nil in E. now destruct E as [E _].
Qed.

End NoChapter.

(** X4.  [split_chapters] returns no chapter exactly when the input has
    no string page (the empty sequence included): a single string
    page, with or without heading, already gives a chapter. *)
Theorem X4_no_chapter_iff_no_string_page :
  forall pages : list pyval,
    split_chapters pages = [] <->
    Forall (fun p => forall s, p <> PyStr s) pages.
Proof.
  intros pages. rewrite <- (string_pages_nil pages 0), <- split_chapters_content.
  split.
  - intros ->. reflexivity.
  - apply flat_map_content_nil, split_chapters_wf.
Qed.

(** ** Words of a chapter *)

Section WordsOfPages.

Lemma cons_append (c : ascii) (s : string) :
  String c EmptyString +:+ s = String c s.
Proof. reflexivity. Qed.

Lemma count_tokens_separated (a b : string) (c : ascii) (w : bool) :
  Char.is_word c = false ->
  count_maximal_tokens w (a +:+ String c b) =
  (count_maximal_tokens w a + count_maximal_tokens false b)%nat.
Proof.
  intros Hc. revert w.
  induction a as [|d a IH]; intros w; simpl.
  - now rewrite Hc.
  - destruct (Char.is_word d); rewrite IH; lia.
Qed.

Lemma count_words_join (parts : list string) :
  count_words (Str.join Str.nl parts) = list_sum (map count_words parts).
Proof.
  rewrite count_words_tokens.
  induction parts as [|p parts IH]; [reflexivity|].
  cbn [map list_sum]. rewrite count_words_tokens.
  destruct parts as [|q parts].
  - cbn. lia.
  - change (Str.join Str.nl (p :: q :: parts))
      with (p +:+ (Str.nl +:+ Str.join Str.nl (q :: parts))).
    unfold Str.nl at 1. rewrite cons_append.
    rewrite count_tokens_separated by reflexivity.
    now rewrite IH.
Qed.

End WordsOfPages.

(** X5.  The word count of several texts joined by newlines is the sum
    of their word counts, so the word count [analyze] reports for a
    chapter is the sum of the word counts of the chapter's pages. *)
Theorem X5_word_count_is_sum_over_pages :
  (forall parts : list string,
     count_words (Str.join Str.nl parts) = list_sum (map count_words parts)) /\
  (forall (i : Z) (c : chapter) (r : Stat.row),
     chapter_row i c = Ok r ->
     Stat.word_count r =
       list_sum (map (fun e => count_words (snd e)) (content c))).
Proof.
  split; [exact count_words_join|].
  intros i c r. unfold chapter_row.
  destruct (startPage c); cbn [as_int bind]; [|discriminate].
  intros [= <-]. cbn [Stat.word_count].
  now rewrite count_words_join, map_map.
Qed.

Lemma X5_word_count_is_sum_over_pages_witness :
  Stat.word_count (Stat.mk 1 (Some "Chapter One") (Num 1) (Num 2) (Num 2) 6) =
  list_sum (map (fun e => count_words (snd e))
              [(0, "Chapter One" +:+ Str.nl +:+ "Text A"); (1, "More text")]).
Proof.
  apply (proj2 X5_word_count_is_sum_over_pages 1
           (mkChapter (Some "Chapter One") (Some 0) 1
              [(0, "Chapter One" +:+ Str.nl +:+ "Text A"); (1, "More text")])).
  vm_compute. reflexivity.
Defined.

(** ** The rows of a segmented document *)

Section Rows.

Lemma tiles_lookup (cs : list chapter) (lo hi : Z) (k : nat) (c : chapter) :
  tiles lo hi cs -> cs !! k = Some c ->
  exists s, startPage c = Some s /\ lo <= s /\ s <= endPage c /\ endPage c <= hi.
Proof.
  revert lo k.
  induction cs as [|c0 cs IH]; intros lo k Ht Hk; [discriminate|].
  destruct Ht as (Hs & Hle & Ht).
  assert (Hhi : forall l cs', tiles l hi cs' -> l <= hi + 1).
  { clear. intros l cs'. revert l.
    induction cs' as [|d cs' IH]; intros l H; cbn [tiles] in H; [lia|].
    destruct H as (_ & H1 & H2). apply IH in H2. lia. }
  destruct k as [|k].
  - injection Hk as <-. exists lo. repeat split; trivial; try lia.
    apply Hhi in Ht. lia.
  - destruct (IH _ k Ht Hk) as (s & H1 & H2 & H3 & H4).
    exists s. repeat split; trivial; lia.
Qed.

Lemma covers_lookup (cs : list chapter) (hi : Z) (k : nat) (c : chapter) :
  covers hi cs -> cs !! k = Some c ->
  (k = 0%nat /\ startPage c = None) \/
  exists s, startPage c = Some s /\ s <= endPage c /\ endPage c <= hi.
Proof.
  intros [(lo & H0 & Ht)|(pre & cs' & -> & Hp & Ht)] Hk.
  - right. destruct (tiles_lookup cs lo hi k c Ht Hk) as (s & ? & ? & ? & ?).
    exists s. repeat split; trivial.
  - destruct k as [|k].
    + injection Hk as <-. now left.
    + right.
      destruct (tiles_lookup cs' _ hi k c Ht Hk) as (s & ? & ? & ? & ?).
      exists s. repeat split; trivial.
Qed.

(** The start page of a chapter is the index of a page. *)
Lemma start_page_nonneg (pages : list pyval) (c : chapter) (s : Z) :
  c ∈ split_chapters pages -> startPage c = Some s -> 0 <= s.
Proof.
  intros Hc Hs.
  pose proof (split_chapters_wf pages) as Hw.
  pose proof (split_chapters_entries pages) as He.
  rewrite Forall_forall in Hw, He.
  destruct (Hw c Hc) as [_ H]. unfold well_formed in H. rewrite Hs in H.
  destruct H as (t & rest & E & _).
  specialize (He c Hc). rewrite E in He.
  inversion He as [|? ? [H0 _] _]. exact H0.
Qed.

End Rows.

(** X6.  In the rows [analyze] builds from the chapters of
    [split_chapters], row [k] carries the chapter number [k + 1]; only
    the first row can hold the "?" placeholders (when the document
    begins with pages before any heading); every other row holds
    numbers, with 1 <= start page <= end page <= number of pages and a
    page count of end - start + 1, at least 1. *)
Theorem X6_rows_of_a_segmented_document :
  forall (pages : list pyval) (k : nat) (r : Stat.row),
    snd (analyze_chapters (split_chapters pages)) !! k = Some r ->
    Stat.chapter r = 1 + Z.of_nat k /\
    ((k = 0%nat /\ Stat.start_page r = Unknown /\ Stat.end_page r = Unknown /\
      Stat.page_count r = Unknown /\ Stat.word_count r = 0%nat /\
      Stat.title r = None) \/
     (exists s e, Stat.start_page r = Num s /\ Stat.end_page r = Num e /\
        Stat.page_count r = Num (e - s + 1) /\
        1 <= s /\ s <= e /\ e <= Z.of_nat (length pages))).
Proof.
  intros pages k r Hr. unfold analyze_chapters in Hr. cbn [snd] in Hr.
  assert (Hk : (k < length (split_chapters pages))%nat).
  { apply lookup_lt_Some in Hr. now rewrite chapter_rows_length in Hr. }
  destruct (lookup_lt_is_Some_2 _ _ Hk) as [c Hc].
  rewrite (chapter_rows_lookup _ 1 k c Hc) in Hr. injection Hr as <-.
  destruct (covers_lookup _ _ k c (split_chapters_covers pages) Hc)
    as [[-> Hs]|(s & Hs & Hle & Hhi)].
  - pose proof (split_chapters_wf pages) as Hw. rewrite Forall_forall in Hw.
    destruct (Hw c (list_elem_of_lookup_2 _ _ _ Hc)) as [_ H].
    unfold well_formed in H. rewrite Hs in H. destruct H as [Ht _].
    unfold chapter_row. rewrite Hs. cbn. rewrite Ht. split; [reflexivity|].
    left. repeat split.
  - pose proof (start_page_nonneg pages c s (list_elem_of_lookup_2 _ _ _ Hc) Hs).
    unfold chapter_row. rewrite Hs. cbn [as_int bind Stat.chapter].
    split; [reflexivity|]. right. exists (s + 1), (endPage c + 1).
    cbn [Stat.start_page Stat.end_page Stat.page_count].
    repeat split; try lia. do 2 f_equal. lia.
Qed.

Lemma X6_rows_of_a_segmented_document_witness :
  Stat.chapter (Stat.mk 2 (Some "Chapter 1") (Num 2) (Num 2) (Num 1) 2) = 1 + Z.of_nat 1 /\
  ((1%nat = 0%nat /\ Num 2 = Unknown /\ Num 2 = Unknown /\ Num 1 = Unknown /\
    2%nat = 0%nat /\ Some "Chapter 1" = None) \/
   (exists s e, Num 2 = Num s /\ Num 2 = Num e /\ Num 1 = Num (e - s + 1) /\
      1 <= s /\ s <= e /\ e <= Z.of_nat (length [PyStr "Intro"; PyStr "Chapter 1"]))).
Proof.
  apply (X6_rows_of_a_segmented_document [PyStr "Intro"; PyStr "Chapter 1"] 1
           (Stat.mk 2 (Some "Chapter 1") (Num 2) (Num 2) (Num 1) 2)).
  vm_compute. reflexivity.
Defined.

(** ** From extracted texts to chapters *)

Section Extraction.

Lemma extract_text_by_page_length (texts : list pyval) :
  length (extract_text_by_page texts) = length texts.
Proof.
  induction texts as [|v texts IH]; [reflexivity|].
  destruct v; cbn [extract_text_by_page length]; now rewrite IH.
Qed.

Lemma string_pages_extracted (texts : list pyval) (i : Z) :
  map fst (string_pages i (extract_text_by_page texts)) =
    seqZ i (Z.of_nat (length texts)) /\
  map snd (string_pages i (extract_text_by_page texts)) =
    map (fun v => match v with PyStr s => s | _ => EmptyString end) texts.
Proof.
  revert i. induction texts as [|v texts IH]; intros i.
  - split; reflexivity.
  - destruct (IH (i + 1)) as [IH1 IH2].
    replace (Z.of_nat (length (v :: texts)))
      with (Z.succ (Z.of_nat (length texts))) by (cbn [length]; lia).
    rewrite seqZ_cons by lia. rewrite Z.pred_succ.
    replace (Z.succ i) with (i + 1) by lia.
    destruct v; cbn [extract_text_by_page string_pages map fst snd];
      now rewrite IH1, IH2.
Qed.

End Extraction.

(** X7.  [extract_text_by_page] returns one string per page (the
    extracted text, or the empty string when the extraction did not
    give a string); and segmenting its result puts every page of the
    document, in order, in exactly one chapter: the page indices
    listed by the chapters are 0, 1, ..., n - 1 and the texts listed
    are the extracted ones. *)
Theorem X7_every_extracted_page_is_assigned :
  forall texts : list pyval,
    length (extract_text_by_page texts) = length texts /\
    Forall (fun p => exists s, p = PyStr s) (extract_text_by_page texts) /\
    map fst (flat_map content (split_chapters (extract_text_by_page texts))) =
      seqZ 0 (Z.of_nat (length texts)) /\
    map snd (flat_map content (split_chapters (extract_text_by_page texts))) =
      map (fun v => match v with PyStr s => s | _ => EmptyString end) texts.
Proof.
  intros texts. split; [apply extract_text_by_page_length|]. split.
  - induction texts as [|v texts IH]; [constructor|].
    destruct v; cbn [extract_text_by_page]; constructor; trivial; now eexists.
  - rewrite split_chapters_content. apply string_pages_extracted.
Qed.

(** ** What the resolver records *)

Section Recorded.

Lemma search_pages_inv (t : string) (pages : list pyval) (i : Z) (r : option Z) :
  search_pages t i pages = Ok r ->
  match r with
  | Some n =>
      exists pre p post, pages = pre ++ PyStr p :: post /\
        Forall (lacks t) pre /\ Str.contains t (Str.upper p) = true /\
        n = i + Z.of_nat (length pre) + 1
  | None => Forall (lacks t) pages
  end.
Proof.
  revert i.
  induction pages as [|q pages IH]; intros i; cbn [search_pages].
  - intros [= <-]. constructor.
  - destruct q as [| |p| |]; try discriminate.
    destruct (Str.contains t (Str.upper p)) eqn:Ec.
    + intros [= <-]. exists [], p, pages. repeat split; trivial.
      cbn [length]. lia.
    + intros H. specialize (IH _ H). destruct r as [n|].
      * destruct IH as (pre & p' & post & -> & Hpre & Hp & ->).
        exists (PyStr p :: pre), p', post. repeat split; trivial.
        -- constructor; trivial. now exists p.
        -- cbn [length]. lia.
      * constructor; trivial. now exists p.
Qed.

Lemma recorded_resolve_from (pages chapters : list pyval)
    (m m' : gmap string (option Z)) :
  recorded pages m -> resolve_from m chapters pages = Ok m' -> recorded pages m'.
Proof.
  revert m.
  induction chapters as [|c chapters IH]; intros m Hm; cbn [resolve_from].
  - now intros [= <-].
  - destruct (getitem0 c) as [v|e]; cbn [bind]; [|discriminate].
    destruct v as [| | |items|]; try (apply IH; exact Hm).
    destruct items as [|x [|y [|z items]]]; try discriminate.
    destruct (first_line_title y) as [t|e]; cbn [bind]; [|discriminate].
    destruct (search_pages t 0 pages) as [r|e] eqn:Er; cbn [bind]; [|discriminate].
    apply IH. intros k v. rewrite lookup_insert.
    destruct (decide (t = k)) as [<-|Hk]; [|apply Hm].
    now intros [= <-].
Qed.

Lemma search_pages_non_string (t : string) (pre post : list pyval) (v : pyval)
    (i : Z) :
  Forall (lacks t) pre -> (forall s, v <> PyStr s) ->
  search_pages t i (pre ++ v :: post) = Raise AttributeError.
Proof.
  intros H Hv. revert i.
  induction H as [|q pre (s & -> & Hs) _ IH]; intros i; cbn [app search_pages].
  - destruct v; trivial. now destruct (Hv s).
  - now rewrite Hs.
Qed.

End Recorded.

(** X8.  Whenever [get_chapter_start_pages] returns, a page number it
    recorded under a title is the 1-based number of the first page
    whose upper-cased text contains the title (so it lies between 1 and
    the number of pages), and [None] is recorded only under a title
    that no page contains. *)
Theorem X8_recorded_page_is_first_match :
  forall (chapters pages : list pyval) (m : gmap string (option Z)) (t : string),
    get_chapter_start_pages chapters pages = Ok m ->
    (forall n, m !! t = Some (Some n) ->
       exists pre p post, pages = pre ++ PyStr p :: post /\
         Forall (lacks t) pre /\ Str.contains t (Str.upper p) = true /\
         n = Z.of_nat (length pre) + 1 /\ 1 <= n <= Z.of_nat (length pages)) /\
    (m !! t = Some None -> Forall (lacks t) pages).
Proof.
  intros chapters pages m t H.
  assert (Hr : recorded pages m).
  { apply (recorded_resolve_from pages chapters ∅ m); trivial.
    intros k v. rewrite lookup_empty. discriminate. }
  split.
  - intros n Hn. apply Hr, search_pages_inv in Hn.
    destruct Hn as (pre & p & post & -> & Hpre & Hp & ->).
    exists pre, p, post. repeat split; trivial; try lia.
    rewrite length_app. cbn [length]. lia.
  - intros Hn. apply Hr, search_pages_inv in Hn. exact Hn.
Qed.

Lemma X8_recorded_page_is_first_match_witness :
  exists pre p post,
    [PyStr "Intro"; PyStr "Chapter 1"; PyStr "chapter 1 again"] =
      pre ++ PyStr p :: post /\
    Forall (lacks "CHAPTER 1") pre /\
    Str.contains "CHAPTER 1" (Str.upper p) = true /\
    2 = Z.of_nat (length pre) + 1 /\ 1 <= 2 <= Z.of_nat 3.
Proof.
  apply (proj1 (X8_recorded_page_is_first_match
                  [PyList [PyTuple [PyInt 1; PyStr "Chapter 1"]]]
                  [PyStr "Intro"; PyStr "Chapter 1"; PyStr "chapter 1 again"]
                  (<["CHAPTER 1" := Some 2]> ∅) "CHAPTER 1" eq_refl)).
  apply lookup_insert_eq.
Defined.

(** X9.  [get_chapter_start_pages] does not tolerate the non-string
    pages that [split_chapters] skips: when the search for a chapter's
    title reaches a page that is not a string before any page
    containing the title, AttributeError is raised. *)
Theorem X9_non_string_page_breaks_the_search :
  forall (chapters done rest pages pre post : list pyval)
         (c page_index v : pyval) (page_text t : string)
         (m : gmap string (option Z)),
    chapters = done ++ c :: rest ->
    resolve_from ∅ done pages = Ok m ->
    getitem0 c = Ok (PyTuple [page_index; PyStr page_text]) ->
    first_line_title (PyStr page_text) = Ok t ->
    pages = pre ++ v :: post ->
    Forall (lacks t) pre ->
    (forall s, v <> PyStr s) ->
    get_chapter_start_pages chapters pages = Raise AttributeError.
Proof.
  intros chapters done rest pages pre post c page_index v page_text t m
    -> Hm Hc Ht Hp Hpre Hv.
  unfold get_chapter_start_pages.
  rewrite resolve_from_app, Hm. cbn [bind resolve_from].
  rewrite Hc. cbn [bind]. rewrite Ht. cbn [bind].
  rewrite Hp at 1. now rewrite search_pages_non_string.
Qed.

Lemma X9_non_string_page_breaks_the_search_witness :
  get_chapter_start_pages
    [PyList [PyTuple [PyInt 2; PyStr "Chapter 1"]]]
    [PyStr "Intro"; PyNone; PyStr "Chapter 1"]
  = Raise AttributeError.
Proof.
  apply (X9_non_string_page_breaks_the_search _ [] [] _
           [PyStr "Intro"] [PyStr "Chapter 1"]
           (PyList [PyTuple [PyInt 2; PyStr "Chapter 1"]]) (PyInt 2) PyNone
           "Chapter 1" "CHAPTER 1" ∅).
  - reflexivity.
  - reflexivity.
  - reflexivity.
  - vm_compute. reflexivity.
  - reflexivity.
  - constructor; [|constructor]. exists "Intro". split; [reflexivity|].
    vm_compute. reflexivity.
  - discriminate.
Defined.

(** ** A title is found on its own page *)

Section OwnPage.

Lemma append_cons (c : ascii) (a b : string) :
  String c a +:+ b = String c (a +:+ b).
Proof. reflexivity. Qed.

Lemma append_nil_l (s : string) : EmptyString +:+ s = s.
Proof. reflexivity. Qed.

Lemma append_nil_r (s : string) : s +:+ EmptyString = s.
Proof.
  induction s as [|c s IH]; [reflexivity|]. rewrite append_cons. now rewrite IH.
Qed.

Lemma append_assoc (a b c : string) : (a +:+ b) +:+ c = a +:+ (b +:+ c).
Proof.
  induction a as [|d a IH]; [reflexivity|]. rewrite !append_cons. now rewrite IH.
Qed.

Lemma upper_append (a b : string) :
  Str.upper (a +:+ b) = Str.upper a +:+ Str.upper b.
Proof.
  induction a as [|d a IH]; [reflexivity|].
  rewrite append_cons. cbn [Str.upper]. rewrite append_cons. now rewrite IH.
Qed.

Lemma startswith_append (p b : string) : Str.startswith p (p +:+ b) = true.
Proof.
  induction p as [|c p IH]; [reflexivity|].
  rewrite append_cons. cbn [Str.startswith]. rewrite IH.
  unfold Char.eqb. now rewrite N.eqb_refl.
Qed.

Lemma contains_unfold (needle hay : string) :
  Str.contains needle hay =
  Str.startswith needle hay ||
  match hay with
  | EmptyString => false
  | String _ hay' => Str.contains needle hay'
  end.
Proof. destruct hay; reflexivity. Qed.

Lemma contains_occurs (sub s : string) :
  occurs_in sub s -> Str.contains sub s = true.
Proof.
  intros (a & b & ->).
  induction a as [|c a IH]; rewrite contains_unfold.
  - rewrite append_nil_l, startswith_append. reflexivity.
  - rewrite append_cons, IH. apply orb_true_r.
Qed.

Lemma occurs_in_trans (a b c : string) :
  occurs_in a b -> occurs_in b c -> occurs_in a c.
Proof.
  intros (x & y & ->) (u & v & ->).
  exists (u +:+ x), (y +:+ v). now rewrite !append_assoc.
Qed.

Lemma occurs_in_upper (a b : string) :
  occurs_in a b -> occurs_in (Str.upper a) (Str.upper b).
Proof.
  intros (x & y & ->). exists (Str.upper x), (Str.upper y).
  now rewrite !upper_append.
Qed.

Lemma lstrip_suffix (s : string) : exists a, s = a +:+ Str.lstrip s.
Proof.
  induction s as [|c s [a IH]]; [now exists EmptyString|].
  cbn [Str.lstrip]. destruct (Char.is_space c).
  - exists (String c a). rewrite append_cons. now rewrite <- IH.
  - now exists EmptyString.
Qed.

Lemma rstrip_prefix (s : string) : exists b, s = Str.rstrip s +:+ b.
Proof.
  induction s as [|c s [b IH]]; [now exists EmptyString|].
  cbn [Str.rstrip]. destruct (Str.rstrip s) as [|d r] eqn:Er.
  - destruct (Char.is_space c).
    + now exists (String c s).
    + exists s. reflexivity.
  - exists b. rewrite append_cons. now rewrite <- IH.
Qed.

Lemma strip_occurs (s : string) : occurs_in (Str.strip s) s.
Proof.
  unfold Str.strip.
  destruct (lstrip_suffix s) as [a Ha].
  destruct (rstrip_prefix (Str.lstrip s)) as [b Hb].
  exists a, b. now rewrite <- Hb.
Qed.

Lemma first_line_prefix (s cur line : string) (lines : list string) :
  Str.splitlines_from cur s = line :: lines ->
  exists b, cur +:+ s = line +:+ b.
Proof.
  revert cur.
  induction s as [|c s IH]; intros cur; cbn [Str.splitlines_from].
  - destruct cur; [discriminate|]. intros [= <- _]. now exists EmptyString.
  - destruct (Char.is_linebreak c).
    + intros [= <- _]. now exists (String c s).
    + intros H. destruct (IH _ H) as [b Hb]. exists b.
      rewrite <- Hb, append_assoc. reflexivity.
Qed.

Lemma title_occurs_in_page (page_text t : string) :
  first_line_title (PyStr page_text) = Ok t ->
  Str.contains t (Str.upper page_text) = true.
Proof.
  cbn [first_line_title].
  destruct (Str.splitlines (Str.strip page_text)) as [|line lines] eqn:El;
    [discriminate|].
  intros [= <-]. apply contains_occurs, occurs_in_upper.
  apply occurs_in_trans with (b := line); [apply strip_occurs|].
  apply occurs_in_trans with (b := Str.strip page_text); [|apply strip_occurs].
  destruct (first_line_prefix _ _ _ _ El) as [b Hb].
  rewrite append_nil_l in Hb. exists EmptyString, b. now rewrite append_nil_l.
Qed.

Lemma search_pages_upto (t : string) (pages : list pyval) (k : nat)
    (page_text : string) (i : Z) :
  Forall (fun p => exists s, p = PyStr s) pages ->
  pages !! k = Some (PyStr page_text) ->
  Str.contains t (Str.upper page_text) = true ->
  exists n, search_pages t i pages = Ok (Some n) /\
            i + 1 <= n /\ n <= i + Z.of_nat k + 1.
Proof.
  intros H. revert k i.
  induction H as [|q pages (s & ->) _ IH]; intros k i Hk Hc; [discriminate|].
  cbn [search_pages].
  destruct (Str.contains t (Str.upper s)) eqn:Es.
  - exists (i + 1). repeat split; lia.
  - destruct k as [|k].
    + injection Hk as ->. congruence.
    + destruct (IH k (i + 1) Hk Hc) as (n & Hn & H1 & H2).
      exists n. repeat split; trivial; lia.
Qed.

End OwnPage.

(** X10.  The title read from a page text (the first line of the
    stripped text, stripped and upper-cased) always occurs in the
    upper-cased text of that page.  So, in a document whose pages are
    all strings, the search for the title of page [k] never ends on
    [None]: it finds a page number between 1 and [k + 1]. *)
Theorem X10_title_found_no_later_than_its_page :
  forall (pages : list pyval) (k : nat) (page_text t : string),
    Forall (fun p => exists s, p = PyStr s) pages ->
    pages !! k = Some (PyStr page_text) ->
    first_line_title (PyStr page_text) = Ok t ->
    Str.contains t (Str.upper page_text) = true /\
    exists n, search_pages t 0 pages = Ok (Some n) /\
              1 <= n /\ n <= Z.of_nat k + 1.
Proof.
  intros pages k page_text t Hp Hk Ht.
  pose proof (title_occurs_in_page _ _ Ht) as Hc. split; trivial.
  destruct (search_pages_upto t pages k page_text 0 Hp Hk Hc) as (n & ? & ? & ?).
  exists n. repeat split; trivial; lia.
Qed.

Lemma X10_title_found_no_later_than_its_page_witness :
  Str.contains "CHAPTER 1" (Str.upper ("  Chapter 1 " +:+ Str.nl +:+ "text")) = true /\
  exists n,
    search_pages "CHAPTER 1" 0
      [PyStr "see chapter 1"; PyStr ("  Chapter 1 " +:+ Str.nl +:+ "text")] =
      Ok (Some n) /\
    1 <= n /\ n <= Z.of_nat 1 + 1.
Proof.
  apply (X10_title_found_no_later_than_its_page
           [PyStr "see chapter 1"; PyStr ("  Chapter 1 " +:+ Str.nl +:+ "text")]
           1 ("  Chapter 1 " +:+ Str.nl +:+ "text") "CHAPTER 1").
  - repeat constructor; now eexists.
  - reflexivity.
  - vm_compute. reflexivity.
Defined.

(** ** The chapter pattern, read without the matcher *)

Section ChapterPattern.

Ltac by_cases c :=
  destruct c as [[] [] [] [] [] [] [] []]; vm_compute; try reflexivity;
  try discriminate; auto.

Lemma in_class_digit (c : ascii) :
  Re.in_class true Char.is_digit c = Char.is_digit c.
Proof. by_cases c. Qed.

Lemma in_class_space (c : ascii) :
  Re.in_class true Char.is_space c = Char.is_space c.
Proof. by_cases c. Qed.

Lemma in_class_letter (c : ascii) :
  Re.in_class true (Char.in_range 97 122) c = Char.is_alpha c.
Proof. by_cases c. Qed.

Lemma in_class_roman (c : ascii) :
  Re.in_class true (Char.one_of "ivxlcdm") c = true -> Char.is_alpha c = true.
Proof. by_cases c. Qed.

Lemma digit_is_word (c : ascii) : Char.is_digit c = true -> Char.is_word c = true.
Proof. by_cases c. Qed.

Lemma alpha_is_word (c : ascii) : Char.is_alpha c = true -> Char.is_word c = true.
Proof. by_cases c. Qed.

Lemma space_not_digit (c : ascii) : Char.is_space c = true -> Char.is_digit c = false.
Proof. by_cases c. Qed.

Lemma space_not_alpha (c : ascii) : Char.is_space c = true -> Char.is_alpha c = false.
Proof. by_cases c. Qed.

Lemma run_alt (ic : bool) (r1 r2 : Re.regex) (p : option ascii) (s : string)
    (k : Re.cont) :
  Re.run ic (Re.Alt r1 r2) p s k =
  Re.orelse (Re.run ic r1 p s k) (Re.run ic r2 p s k).
Proof. reflexivity. Qed.

Lemma succeeds_orelse (a b : option string) :
  succeeds (Re.orelse a b) = succeeds a || succeeds b.
Proof. now destruct a. Qed.

Lemma drop_while_ext (q q' : ascii -> bool) (s : string) :
  (forall c, q c = q' c) -> drop_while q s = drop_while q' s.
Proof.
  intros H. induction s as [|c s IH]; [reflexivity|].
  cbn [drop_while]. now rewrite H, IH.
Qed.

Lemma token_ext (q q' : ascii -> bool) (s : string) :
  (forall c, q c = q' c) -> token q s = token q' s.
Proof.
  intros H. destruct s as [|c s]; [reflexivity|].
  cbn [token]. now rewrite H, (drop_while_ext q q' s H).
Qed.

Lemma token_weaken (q q' : ascii -> bool) (s : string) :
  (forall c, q c = true -> q' c = true) ->
  (forall c, q' c = true -> Char.is_word c = true) ->
  token q s = true -> token q' s = true.
Proof.
  intros Hq Hw. destruct s as [|c s]; [discriminate|]. cbn [token].
  intros [Hc Hd]%andb_prop. rewrite (Hq _ Hc). cbn [andb].
  apply negb_true_iff in Hd. apply negb_true_iff.
  induction s as [|d s IH]; [reflexivity|]. cbn [drop_while] in *.
  destruct (q d) eqn:Ed.
  - rewrite (Hq _ Ed). now apply IH.
  - cbn [Re.word_after] in Hd. destruct (q' d) eqn:Ed'.
    + apply Hw in Ed'. congruence.
    + exact Hd.
Qed.

Lemma greedy_succeeds (q : ascii -> bool) (s : string) (p : option ascii) :
  succeeds (Re.greedy q p s (fun _ t => Some t)) = true.
Proof.
  revert p. induction s as [|c s IH]; intros p; cbn [Re.greedy]; trivial.
  destruct (q c); trivial. rewrite succeeds_orelse, IH. reflexivity.
Qed.

Lemma boundary_then_rest_succeeds (p : option ascii) (t : string) :
  succeeds (boundary_then_rest p t) = xorb (Re.word_before p) (Re.word_after t).
Proof.
  unfold boundary_then_rest. cbn [Re.run].
  destruct (xorb (Re.word_before p) (Re.word_after t)); trivial.
  apply greedy_succeeds.
Qed.

Lemma greedy_token (q : ascii -> bool) (t : string) (p : option ascii) :
  (forall c, q c = true -> Char.is_word c = true) ->
  Re.word_before p = true ->
  succeeds (Re.greedy q p t boundary_then_rest) =
    negb (Re.word_after (drop_while q t)).
Proof.
  intros Hq. revert p.
  induction t as [|c t IH]; intros p Hp; cbn [Re.greedy drop_while].
  - rewrite boundary_then_rest_succeeds, Hp. reflexivity.
  - destruct (q c) eqn:Ec.
    + rewrite succeeds_orelse, IH by (cbn; auto).
      rewrite boundary_then_rest_succeeds, Hp. cbn [Re.word_after].
      rewrite (Hq _ Ec). cbn. apply orb_false_r.
    + rewrite boundary_then_rest_succeeds, Hp. reflexivity.
Qed.

Lemma plus_token (q : ascii -> bool) (t : string) (p : option ascii) :
  (forall c, Re.in_class true q c = true -> Char.is_word c = true) ->
  succeeds (Re.run true (Re.Plus q) p t boundary_then_rest) =
    token (Re.in_class true q) t.
Proof.
  intros Hq. destruct t as [|c t]; [reflexivity|]. cbn [Re.run token].
  destruct (Re.in_class true q c) eqn:Ec; [|reflexivity].
  rewrite greedy_token; trivial. cbn. auto.
Qed.

(** The three alternatives for the number: the last one, the roman
    numerals, accepts nothing the second does not. *)
Lemma number_succeeds (t : string) (p : option ascii) :
  succeeds
    (Re.run true
       (Re.Alt (Re.Plus Char.is_digit)
          (Re.Alt (Re.Plus (Char.in_range 97 122))
                  (Re.Plus (Char.one_of "ivxlcdm"))))
       p t boundary_then_rest) =
  token Char.is_digit t || token Char.is_alpha t.
Proof.
  rewrite !run_alt, !succeeds_orelse, !plus_token.
  - rewrite (token_ext _ _ t in_class_digit), (token_ext _ _ t in_class_letter).
    f_equal.
    destruct (token Char.is_alpha t) eqn:Ea; [reflexivity|]. cbn [orb].
    destruct (token (Re.in_class true (Char.one_of "ivxlcdm")) t) eqn:Er;
      [|reflexivity].
    apply (token_weaken _ Char.is_alpha) in Er; try congruence.
    + exact in_class_roman.
    + exact alpha_is_word.
  - intros c Hc. apply alpha_is_word, in_class_roman, Hc.
  - intros c Hc. apply alpha_is_word. now rewrite <- in_class_letter.
  - intros c Hc. apply digit_is_word. now rewrite <- in_class_digit.
Qed.

Lemma greedy_skip (q : ascii -> bool) (f : string -> bool) (k : Re.cont) :
  (forall p t, succeeds (k p t) = f t) ->
  (forall c t, q c = true -> f (String c t) = false) ->
  forall t p, succeeds (Re.greedy q p t k) = f (drop_while q t).
Proof.
  intros Hk Hf.
  induction t as [|c t IH]; intros p; cbn [Re.greedy drop_while]; [apply Hk|].
  destruct (q c) eqn:Ec; [|apply Hk].
  rewrite succeeds_orelse, IH, Hk, (Hf _ _ Ec). apply orb_false_r.
Qed.

Lemma literal_after_keyword (l : string) (f : string -> bool) (k : Re.cont) :
  (forall p t, succeeds (k p t) = f t) ->
  forall s p, succeeds (Re.literal true l p s k) =
    match after_keyword l s with
    | Some rest => f rest
    | None => false
    end.
Proof.
  intros Hk.
  induction l as [|a l IH]; intros s p; cbn [Re.literal after_keyword];
    [apply Hk|].
  destruct s as [|c s]; [reflexivity|].
  destruct (Re.same_char true a c); [apply IH|reflexivity].
Qed.

Lemma after_the_keyword_succeeds (p : option ascii) (t : string) :
  succeeds (after_the_keyword p t) = numbered t.
Proof.
  unfold after_the_keyword. cbn [Re.run].
  destruct t as [|c t]; [reflexivity|]. cbn [numbered].
  rewrite in_class_space. destruct (Char.is_space c) eqn:Ec; [|reflexivity].
  cbn [andb].
  rewrite (greedy_skip (Re.in_class true Char.is_space)
             (fun t => token Char.is_digit t || token Char.is_alpha t)).
  - now rewrite (drop_while_ext _ _ t in_class_space).
  - intros p' t'. apply (number_succeeds t' p').
  - intros d t' Hd. rewrite in_class_space in Hd. cbn [token].
    now rewrite (space_not_digit _ Hd), (space_not_alpha _ Hd).
Qed.

Lemma chapter_regex_reads (s : string) :
  Re.matches chapter_regex s = is_chapter_heading s.
Proof.
  unfold Re.matches, Re.match_at, chapter_regex, is_chapter_heading.
  cbn [Re.expr Re.ignorecase].
  change (succeeds
            (Re.orelse (Re.literal true "chapter" None s after_the_keyword)
                       (Re.literal true "book" None s after_the_keyword)) =
          (match after_keyword "chapter" s with
           | Some rest => numbered rest
           | None => false
           end ||
           match after_keyword "book" s with
           | Some rest => numbered rest
           | None => false
           end)).
  rewrite succeeds_orelse.
  now rewrite !(literal_after_keyword _ numbered after_the_keyword
                  after_the_keyword_succeeds).
Qed.

End ChapterPattern.

(** X11.  The chapter pattern accepts an ASCII line exactly when the line
    starts with "chapter" or "book" in any letter case, followed by
    white space, followed by a run of digits or a run of letters that
    ends at a word boundary (a non-word character or the end of the
    line); whatever follows is accepted, and the roman-numeral
    alternative of the pattern accepts nothing more. *)
Theorem X11_chapter_pattern_meaning :
  forall s : string,
    ascii_text s = true ->
    Re.matches chapter_regex s = is_chapter_heading s.
Proof. intros s _. apply chapter_regex_reads. Qed.

Lemma X11_chapter_pattern_meaning_witness :
  Re.matches chapter_regex "Book iv: the return" =
  is_chapter_heading "Book iv: the return".
Proof.
  apply (X11_chapter_pattern_meaning "Book iv: the return"). reflexivity.
Defined.

(** ** One pattern per line *)

Section OnePattern.

Lemma char_eqb_eq (a b : ascii) : Char.eqb a b = true -> a = b.
Proof.
  unfold Char.eqb, Char.code. intros H%N.eqb_eq.
  rewrite <- (ascii_N_embedding a), <- (ascii_N_embedding b). now rewrite H.
Qed.

Lemma after_keyword_key (l s rest : string) (n : nat) :
  after_keyword l s = Some rest -> (n <= String.length l)%nat ->
  Str.lower (take n s) = Str.lower (take n l).
Proof.
  revert s n.
  induction l as [|a l IH]; intros s n H Hn.
  - cbn [String.length] in Hn. replace n with 0%nat by lia. now destruct s.
  - cbn [after_keyword] in H. destruct s as [|c s]; [discriminate|].
    destruct (Re.same_char true a c) eqn:Ec; [|discriminate].
    destruct n as [|n]; [reflexivity|]. cbn [take Str.lower].
    cbn [String.length] in Hn. rewrite (IH s n H) by lia.
    unfold Re.same_char in Ec. apply char_eqb_eq in Ec. now rewrite Ec.
Qed.

Lemma literal_keyword (l s : string) (p : option ascii) (k : Re.cont) :
  succeeds (Re.literal true l p s k) = true ->
  exists rest, after_keyword l s = Some rest.
Proof.
  revert s p.
  induction l as [|a l IH]; intros s p; cbn [Re.literal after_keyword].
  - now eexists.
  - destruct s as [|c s]; [discriminate|].
    destruct (Re.same_char true a c); [apply IH|discriminate].
Qed.

Lemma literal_key (l s : string) (p : option ascii) (k : Re.cont) :
  (4 <= String.length l)%nat ->
  succeeds (Re.literal true l p s k) = true -> key s = Str.lower (take 4 l).
Proof.
  intros Hl H. destruct (literal_keyword _ _ _ _ H) as [rest Hr].
  exact (after_keyword_key _ _ _ 4 Hr Hl).
Qed.

Lemma section_key (l s : string) :
  (4 <= String.length l)%nat ->
  Re.matches (section_regex (Re.Lit l)) s = true -> key s = Str.lower (take 4 l).
Proof.
  intros Hl H. unfold Re.matches, Re.match_at, section_regex in H.
  cbn [Re.expr Re.ignorecase Re.run] in H.
  match type of H with
  | match ?x with _ => _ end = true => change (succeeds x = true) in H
  end.
  exact (literal_key _ _ _ _ Hl H).
Qed.

Lemma acknowledgements_key (s : string) :
  Re.matches
    (section_regex (Re.Seq (Re.Lit "acknowledg")
                      (Re.Seq (Re.Opt (Re.Lit "e")) (Re.Lit "ments")))) s = true ->
  key s = "ackn".
Proof.
  intros H. unfold Re.matches, Re.match_at, section_regex in H.
  cbn [Re.expr Re.ignorecase Re.run] in H.
  match type of H with
  | match ?x with _ => _ end = true => change (succeeds x = true) in H
  end.
  exact (literal_key "acknowledg" _ _ _ ltac:(cbn; lia) H).
Qed.

Lemma chapter_key (s : string) :
  Re.matches chapter_regex s = true -> key s = "chap" \/ key s = "book".
Proof.
  rewrite chapter_regex_reads. unfold is_chapter_heading.
  intros [H|H]%orb_prop.
  - left. destruct (after_keyword "chapter" s) as [rest|] eqn:E; [|discriminate].
    apply (after_keyword_key "chapter" s rest 4 E). cbn. lia.
  - right. destruct (after_keyword "book" s) as [rest|] eqn:E; [|discriminate].
    apply (after_keyword_key "book" s rest 4 E). cbn. lia.
Qed.

(** The key a line must have for the pattern of a label to match. *)
Lemma section_patterns_key (label : string) (rx : Re.pattern) (s : string) :
  In (label, rx) section_patterns -> Re.matches rx s = true ->
  In (label, key s) label_keys.
Proof.
  intros Hin Hm. unfold section_patterns in Hin. cbn [In] in Hin.
  repeat (destruct Hin as [Hin|Hin];
          [injection Hin as <- <-|]); try contradiction.
  - apply section_key in Hm; [|cbn; lia]. rewrite Hm. unfold label_keys. cbn. auto 10.
  - apply section_key in Hm; [|cbn; lia]. rewrite Hm. unfold label_keys. cbn. auto 10.
  - rewrite (acknowledgements_key _ Hm). unfold label_keys. cbn. auto.
  - apply section_key in Hm; [|cbn; lia]. rewrite Hm. unfold label_keys. cbn. auto 10.
  - apply section_key in Hm; [|cbn; lia]. rewrite Hm. unfold label_keys. cbn. auto 10.
  - apply section_key in Hm; [|cbn; lia]. rewrite Hm. unfold label_keys. cbn. auto 10.
  - apply section_key in Hm; [|cbn; lia]. rewrite Hm. unfold label_keys. cbn. auto 10.
  - apply section_key in Hm; [|cbn; lia]. rewrite Hm. unfold label_keys. cbn. auto 10.
Qed.

Lemma one_label_per_key (l1 l2 k : string) :
  In (l1, k) label_keys -> In (l2, k) label_keys ->
  l1 = l2 /\ k <> "chap" /\ k <> "book".
Proof.
  unfold label_keys. cbn [In]. intros H1 H2.
  repeat (destruct H1 as [H1|H1]; [injection H1 as <- <-|]); try contradiction;
    repeat (destruct H2 as [H2|H2]; [injection H2 as <-|]); try contradiction;
    try discriminate; repeat split; discriminate.
Qed.

Lemma find_section_in (ps : list (string * Re.pattern)) (s label : string) :
  find_section ps s = Some label ->
  exists rx, In (label, rx) ps /\ Re.matches rx s = true.
Proof.
  induction ps as [|[l r] ps IH]; cbn [find_section]; [discriminate|].
  destruct (Re.matches r s) eqn:Er.
  - intros [= <-]. exists r. split; [now left|exact Er].
  - intros H. destruct (IH H) as (rx & Hin & Hrx). exists rx.
    split; [now right|exact Hrx].
Qed.

Lemma find_section_some (ps : list (string * Re.pattern)) (s label : string)
    (rx : Re.pattern) :
  In (label, rx) ps -> Re.matches rx s = true ->
  exists label', find_section ps s = Some label'.
Proof.
  induction ps as [|[l r] ps IH]; cbn [find_section In]; [contradiction|].
  intros [Hin|Hin] Hrx.
  - injection Hin as -> ->. rewrite Hrx. now eexists.
  - destruct (Re.matches r s); [now eexists|]. now apply IH.
Qed.

End OnePattern.

(** X12.  No line matches two patterns: a line that matches the chapter
    pattern matches no section pattern, and two section patterns that
    match the same line carry the same label.  So the order in which
    the patterns are tried never changes the outcome: a line gets the
    label of a section exactly when the pattern of that label matches
    it. *)
Theorem X12_one_pattern_per_line :
  forall s : string,
    (forall label rx, In (label, rx) section_patterns ->
       Re.matches chapter_regex s = true -> Re.matches rx s = false) /\
    (forall l1 r1 l2 r2,
       In (l1, r1) section_patterns -> In (l2, r2) section_patterns ->
       Re.matches r1 s = true -> Re.matches r2 s = true -> l1 = l2) /\
    (forall label,
       find_section section_patterns s = Some label <->
       exists rx, In (label, rx) section_patterns /\ Re.matches rx s = true).
Proof.
  intros s.
  assert (B : forall l1 r1 l2 r2,
    In (l1, r1) section_patterns -> In (l2, r2) section_patterns ->
    Re.matches r1 s = true -> Re.matches r2 s = true -> l1 = l2).
  { intros l1 r1 l2 r2 H1 H2 M1 M2.
    exact (proj1 (one_label_per_key _ _ _
                    (section_patterns_key _ _ _ H1 M1)
                    (section_patterns_key _ _ _ H2 M2))). }
  split; [|split; [exact B|]].
  - intros label rx Hin Hc.
    destruct (Re.matches rx s) eqn:Hrx; [|reflexivity].
    pose proof (section_patterns_key _ _ _ Hin Hrx) as Hk.
    destruct (one_label_per_key _ _ _ Hk Hk) as (_ & H1 & H2).
    destruct (chapter_key _ Hc); contradiction.
  - intros label. split; [apply find_section_in|].
    intros (rx & Hin & Hrx).
    destruct (find_section_some _ _ _ _ Hin Hrx) as [label' E].
    destruct (find_section_in _ _ _ E) as (rx' & Hin' & Hrx').
    now rewrite E, (B _ _ _ _ Hin' Hin Hrx' Hrx).
Qed.

Lemma X12_one_pattern_per_line_witness :
  Re.matches (section_regex (Re.Lit "prologue")) "Chapter 1: the prologue" = false /\
  find_section section_patterns "Epilogue." = Some "Epilogue".
Proof.
  destruct (X12_one_pattern_per_line "Chapter 1: the prologue") as (H1 & _ & _).
  destruct (X12_one_pattern_per_line "Epilogue.") as (_ & _ & H3).
  split.
  - apply (H1 "Prologue").
    + left. reflexivity.
    + vm_compute. reflexivity.
  - apply H3. exists (section_regex (Re.Lit "epilogue")). split.
    + right. left. reflexivity.
    + vm_compute. reflexivity.
Defined.

(** X13.  An ASCII line is a heading only if, once stripped, it begins
    with one of ten four-letter prefixes (letter case ignored): "chap"
    or "book", and then the title is the stripped line itself, or the
    prefix of one of the eight section labels, and then the title is
    that label.  An ASCII line beginning otherwise is never a heading. *)
Theorem X13_headings_begin_with_a_keyword :
  forall (line t : string),
    ascii_text line = true ->
    heading_of line = Some t ->
    (t = Str.strip line /\ (key t = "chap" \/ key t = "book")) \/
    In (t, key (Str.strip line)) label_keys.
Proof.
  intros line t _. unfold heading_of. cbv zeta.
  destruct (Re.matches chapter_regex (Str.strip line)) eqn:Ec.
  - intros [= <-]. left. split; [reflexivity|now apply chapter_key].
  - intros H. right. destruct (find_section_in _ _ _ H) as (rx & Hin & Hrx).
    exact (section_patterns_key _ _ _ Hin Hrx).
Qed.

Lemma X13_headings_begin_with_a_keyword_witness :
  ("Book IV" = Str.strip "  Book IV " /\ (key "Book IV" = "chap" \/ key "Book IV" = "book")) \/
  In ("Book IV", key (Str.strip "  Book IV ")) label_keys.
Proof.
  apply (X13_headings_begin_with_a_keyword "  Book IV " "Book IV").
  - reflexivity.
  - vm_compute. reflexivity.
Defined.

(** ** Texts without words *)

Section Words.

Lemma count_tokens_bound (s : string) (w : bool) :
  (2 * count_maximal_tokens w s <= String.length s + (if w then 0 else 1))%nat.
Proof.
  revert w. induction s as [|c s IH]; intros w;
    cbn [count_maximal_tokens String.length].
  - destruct w; lia.
  - destruct (Char.is_word c).
    + specialize (IH true). destruct w; cbn in *; lia.
    + specialize (IH false). destruct w; cbn in *; lia.
Qed.

Lemma count_tokens_zero (s : string) :
  count_maximal_tokens false s = 0%nat <-> has_word_char s = false.
Proof.
  induction s as [|c s IH]; cbn [count_maximal_tokens has_word_char];
    [tauto|].
  destruct (Char.is_word c) eqn:Ec; cbn [orb].
  - split; [lia|discriminate].
  - exact IH.
Qed.

End Words.

(** X14.  [count_words] returns 0 for an ASCII text exactly when the
    text has no word character (letter, digit or underscore); and for
    any text it never returns more than half the length of the text,
    rounded up. *)
Theorem X14_word_count_zero_and_bound :
  forall text : string,
    (ascii_text text = true ->
     (count_words text = 0%nat <-> has_word_char text = false)) /\
    (2 * count_words text <= String.length text + 1)%nat.
Proof.
  intros text. rewrite count_words_tokens. split.
  - intros _. apply count_tokens_zero.
  - exact (count_tokens_bound text false).
Qed.

Lemma X14_word_count_zero_and_bound_witness :
  (count_words "-- ... --" = 0%nat <-> has_word_char "-- ... --" = false) /\
  (2 * count_words "-- ... --" <= String.length "-- ... --" + 1)%nat.
Proof.
  split.
  - apply (proj1 (X14_word_count_zero_and_bound "-- ... --")). reflexivity.
  - exact (proj2 (X14_word_count_zero_and_bound "-- ... --")).
Defined.

(** ** The number of chapters *)

Section ChapterCount.

Lemma count_headings_app (a b : list entry) :
  count_headings (a ++ b) = (count_headings a + count_headings b)%nat.
Proof.
  induction a as [|e a IH]; [reflexivity|]. cbn [app count_headings].
  destruct (page_heading (snd e)); rewrite IH; reflexivity.
Qed.

Lemma count_headings_none (es : list entry) :
  Forall no_heading es -> count_headings es = 0%nat.
Proof.
  induction 1 as [|e es He _ IH]; [reflexivity|]. cbn [count_headings].
  unfold no_heading in He. now rewrite He.
Qed.

Lemma count_headings_chapter (c : chapter) :
  chapter_wf c ->
  count_headings (content c) =
    match startPage c with Some _ => 1%nat | None => 0%nat end.
Proof.
  intros [_ H]. unfold well_formed in H. destruct (startPage c) as [s|].
  - destruct H as (t & rest & -> & [h Hh] & Ht & Hr). cbn [count_headings snd].
    rewrite Ht, Hh. now rewrite (count_headings_none _ Hr).
  - destruct H as [_ H]. now apply count_headings_none.
Qed.

Lemma tiles_started (cs : list chapter) (lo hi : Z) :
  tiles lo hi cs -> Forall (fun c => is_Some (startPage c)) cs.
Proof.
  revert lo. induction cs as [|c cs IH]; intros lo H; [constructor|].
  destruct H as (Hs & _ & H). constructor; [exists lo; exact Hs|exact (IH _ H)].
Qed.

Lemma count_headings_started (cs : list chapter) :
  Forall chapter_wf cs -> Forall (fun c => is_Some (startPage c)) cs ->
  count_headings (flat_map content cs) = length cs.
Proof.
  induction 1 as [|c cs Hc _ IH]; [reflexivity|].
  intros Hs. inversion Hs as [|? ? [s Hs1] Hs2]. subst.
  cbn [flat_map length]. rewrite count_headings_app, (IH Hs2).
  now rewrite (count_headings_chapter c Hc), Hs1.
Qed.

End ChapterCount.

(** X15.  The number of chapters [split_chapters] returns (the
    [chapter_count] of [analyze]) is the number of string pages that
    carry a heading, plus one when the first string page carries none
    (the pages before the first heading make a chapter of their own). *)
Theorem X15_number_of_chapters :
  forall pages : list pyval,
    length (split_chapters pages) =
    (count_headings (string_pages 0 pages) +
     match string_pages 0 pages with
     | e :: _ => match page_heading (snd e) with Some _ => 0 | None => 1 end
     | [] => 0
     end)%nat.
Proof.
  intros pages. rewrite <- split_chapters_content.
  pose proof (split_chapters_wf pages) as Hw.
  destruct (split_chapters_covers pages)
    as [(lo & _ & Ht)|(pre & cs' & E & Hp & Ht)].
  - rewrite (count_headings_started _ Hw (tiles_started _ _ _ Ht)).
    destruct (split_chapters pages) as [|c cs]; [reflexivity|].
    inversion Hw as [|? ? [_ Hc] _]. subst. destruct Ht as (Hs & _).
    unfold well_formed in Hc. rewrite Hs in Hc.
    destruct Hc as (t & rest & Ec & [h Hh] & Hpt & _).
    cbn [flat_map length]. rewrite Ec. cbn [app snd]. rewrite Hpt, Hh. lia.
  - rewrite E in Hw |- *. inversion Hw as [|? ? Hc Hw']. subst.
    cbn [flat_map length]. rewrite count_headings_app.
    rewrite (count_headings_chapter _ Hc), Hp.
    rewrite (count_headings_started _ Hw' (tiles_started _ _ _ Ht)).
    destruct Hc as [Hne Hc]. unfold well_formed in Hc. rewrite Hp in Hc.
    destruct Hc as [_ Hn]. destruct (content pre) as [|e es]; [contradiction|].
    inversion Hn as [|? ? He _]. subst. unfold no_heading in He.
    cbn [app]. rewrite He. lia.
Qed.

(** ** Pages within the range of their chapter *)

Section Within.

Lemma within_mono (lo : option Z) (hi hi' : Z) (es : list entry) :
  hi <= hi' -> within lo hi es -> within lo hi' es.
Proof.
  intros Hle H. unfold within in *. eapply Forall_impl; [exact H|].
  intros e [H1 H2]. split; [exact H1|lia].
Qed.

Lemma state_within_init : state_within init 0.
Proof. repeat split; try constructor. discriminate. Qed.

Lemma state_within_page_step (st : state) (i : Z) (page : pyval) :
  state_within st i -> state_within (page_step st i page) (i + 1).
Proof.
  intros (Hc & Hs & Hle).
  assert (Skip : state_within st (i + 1)).
  { repeat split; trivial.
    - apply within_mono with (hi := i - 1); [lia|exact Hc].
    - intros s Es. specialize (Hle s Es). lia. }
  destruct (page_step_cases st i page) as [E|[(t & _ & E)|(t & h & _ & E)]];
    rewrite E; clear E; trivial.
  - unfold append_page. destruct (current_chapter st) as [l|] eqn:El; trivial.
    destruct Skip as (Hc' & _ & Hle'). rewrite El in Hc'.
    repeat split; cbn [current_chapter current_start chapters entries]; trivial.
    apply Forall_app. split; [exact Hc'|]. constructor; [|constructor].
    cbn [fst]. split; [|lia]. destruct (current_start st) as [s|] eqn:Es; trivial.
    specialize (Hle s eq_refl). lia.
  - repeat split; cbn [open_chapter current_chapter current_start chapters entries].
    + constructor; [|constructor]. cbn [fst]. split; lia.
    + destruct (truthy (current_chapter st)); trivial.
      apply Forall_app. split; trivial. constructor; [exact Hc|constructor].
    + intros s [= <-]. lia.
Qed.

Lemma state_within_scan_pages (pages : list pyval) (st : state) (i : Z) :
  state_within st i ->
  state_within (scan_pages st i pages) (i + Z.of_nat (length pages)).
Proof.
  revert st i.
  induction pages as [|page rest IH]; intros st i H; cbn [scan_pages length].
  - now replace (i + Z.of_nat 0) with i by lia.
  - replace (i + Z.of_nat (S (length rest)))
      with ((i + 1) + Z.of_nat (length rest)) by lia.
    apply IH. now apply state_within_page_step.
Qed.

Lemma split_chapters_within (pages : list pyval) :
  Forall chapter_within (split_chapters pages).
Proof.
  destruct (state_within_scan_pages pages init 0 state_within_init)
    as (Hc & Hs & _).
  unfold split_chapters, close_last.
  destruct (truthy (current_chapter (scan_pages init 0 pages))); trivial.
  apply Forall_app. split; trivial. constructor; [exact Hc|constructor].
Qed.

End Within.

(** X16.  Every page listed in a chapter lies within the chapter's
    range: its index is at most the chapter's end page and, when the
    chapter has a start page, at least the start page. *)
Theorem X16_pages_within_the_chapter_range :
  forall (pages : list pyval) (c : chapter) (e : entry),
    In c (split_chapters pages) -> In e (content c) ->
    match startPage c with Some s => s <= fst e | None => True end /\
    fst e <= endPage c.
Proof.
  intros pages c e Hc He.
  pose proof (split_chapters_within pages) as H.
  rewrite Forall_forall in H. apply list_elem_of_In in Hc.
  specialize (H c Hc). unfold chapter_within, within in H.
  rewrite Forall_forall in H. apply list_elem_of_In in He. exact (H e He).
Qed.

Lemma X16_pages_within_the_chapter_range_witness :
  0 <= fst (1, "More text") /\ fst (1, "More text") <= 1.
Proof.
  apply (X16_pages_within_the_chapter_range ex_pages
           (mkChapter (Some "Chapter One") (Some 0) 1
              [(0, "Chapter One" +:+ Str.nl +:+ "Text A"); (1, "More text")])
           (1, "More text")).
  - vm_compute. left. reflexivity.
  - right. left. reflexivity.
Defined.

(** ** The mapping as a function of the titles *)

Section Titles.

Variable pages : list pyval.

Lemma resolve_from_lookup (chapters : list pyval) (m0 m : gmap string (option Z)) :
  resolve_from m0 chapters pages = Ok m ->
  forall t : string,
    (t ∈ omap chapter_title chapters ->
       exists v, search_pages t 0 pages = Ok v /\ m !! t = Some v) /\
    (t ∉ omap chapter_title chapters -> m !! t = m0 !! t).
Proof.
  revert m0.
  induction chapters as [|c chapters IH]; intros m0; cbn [resolve_from].
  - intros [= <-] t. split; [|reflexivity]. intros H. now apply elem_of_nil in H.
  - cbn [omap list_omap].
    remember (chapter_title c) as ot eqn:Eot. unfold chapter_title in Eot.
    destruct (getitem0 c) as [v|e]; cbn [bind]; [|discriminate].
    destruct v as [| | |items|]; try (subst ot; apply IH).
    destruct items as [|x [|y [|z items]]]; try discriminate.
    destruct (first_line_title y) as [t0|e]; cbn [bind]; [|discriminate].
    subst ot.
    destruct (search_pages t0 0 pages) as [r|e] eqn:Er; cbn [bind];
      [|discriminate].
    intros H t. destruct (IH _ H t) as [IH1 IH2]. split.
    + intros Ht. destruct (decide (t ∈ omap chapter_title chapters)) as [Hin|Hin].
      * now apply IH1.
      * apply elem_of_cons in Ht. destruct Ht as [->|Ht]; [|contradiction].
        exists r. split; [exact Er|]. rewrite (IH2 Hin). apply lookup_insert_eq.
    + intros Ht. apply not_elem_of_cons in Ht. destruct Ht as [Hne Hin].
      rewrite (IH2 Hin). now apply lookup_insert_ne.
Qed.

End Titles.

(** X17.  When [get_chapter_start_pages] returns, its mapping has an
    entry exactly for the titles read from the chapters, and the value
    under a title is the result of the search for that title over the
    pages: it does not depend on which chapter, or how many chapters,
    gave the title. *)
Theorem X17_mapping_is_a_function_of_the_titles :
  forall (chapters pages : list pyval) (m : gmap string (option Z)) (t : string),
    get_chapter_start_pages chapters pages = Ok m ->
    (In t (omap chapter_title chapters) ->
       exists v, search_pages t 0 pages = Ok v /\ m !! t = Some v) /\
    (~ In t (omap chapter_title chapters) -> m !! t = None).
Proof.
  intros chapters pages m t H.
  destruct (resolve_from_lookup pages chapters ∅ m H t) as [H1 H2].
  rewrite <- list_elem_of_In. split; [exact H1|].
  intros Hn. rewrite (H2 Hn). apply lookup_empty.
Qed.

Lemma X17_mapping_is_a_function_of_the_titles_witness :
  (exists v,
     search_pages "CHAPTER 1" 0 [PyStr "Chapter 1"; PyStr "the end"] = Ok v /\
     (<["CHAPTER 1" := Some 1]> (∅ : gmap string (option Z))) !! "CHAPTER 1" = Some v) /\
  (<["CHAPTER 1" := Some 1]> (∅ : gmap string (option Z))) !! "EPILOGUE" = None.
Proof.
  assert (E : get_chapter_start_pages
                [ PyList [PyTuple [PyInt 0; PyStr "Chapter 1"]];
                  PyList [PyTuple [PyInt 5; PyStr "chapter 1"]] ]
                [PyStr "Chapter 1"; PyStr "the end"]
              = Ok (<["CHAPTER 1" := Some 1]> (∅ : gmap string (option Z))))
    by (vm_compute; reflexivity).
  split.
  - apply (proj1 (X17_mapping_is_a_function_of_the_titles _ _ _ "CHAPTER 1" E)).
    left. reflexivity.
  - apply (proj2 (X17_mapping_is_a_function_of_the_titles _ _ _ "EPILOGUE" E)).
    intros [H|[H|[]]]; discriminate H.
Defined.

(** X18.  The mapping returned by [get_chapter_start_pages] does not
    depend on the order of the chapters: two chapter lists that are
    permutations of each other give, when both calls return, the same
    mapping. *)
Theorem X18_mapping_independent_of_chapter_order :
  forall (chapters chapters' pages : list pyval) (m m' : gmap string (option Z)),
    Permutation chapters chapters' ->
    get_chapter_start_pages chapters pages = Ok m ->
    get_chapter_start_pages chapters' pages = Ok m' ->
    m = m'.
Proof.
  intros chapters chapters' pages m m' Hp H H'. apply map_eq. intros t.
  destruct (resolve_from_lookup pages chapters ∅ m H t) as [H1 H2].
  destruct (resolve_from_lookup pages chapters' ∅ m' H' t) as [H1' H2'].
  assert (Hiff : t ∈ omap chapter_title chapters <->
                 t ∈ omap chapter_title chapters').
  { now rewrite Hp. }
  destruct (decide (t ∈ omap chapter_title chapters)) as [Hin|Hin].
  - destruct (H1 Hin) as (v & Hv & ->).
    destruct (H1' (proj1 Hiff Hin)) as (v' & Hv' & ->). congruence.
  - rewrite (H2 Hin), H2'; [reflexivity|]. intros Hin'. now apply Hin, Hiff.
Qed.

Lemma X18_mapping_independent_of_chapter_order_witness :
  <["CHAPTER 1" := Some 1]> (<["EPILOGUE" := None]> (∅ : gmap string (option Z))) =
  <["EPILOGUE" := None]> (<["CHAPTER 1" := Some 1]> (∅ : gmap string (option Z))).
Proof.
  apply (X18_mapping_independent_of_chapter_order
           [ PyList [PyTuple [PyInt 3; PyStr "Epilogue"]];
             PyList [PyTuple [PyInt 0; PyStr "Chapter 1"]] ]
           [ PyList [PyTuple [PyInt 0; PyStr "Chapter 1"]];
             PyList [PyTuple [PyInt 3; PyStr "Epilogue"]] ]
           [PyStr "Chapter 1"; PyStr "the end"]).
  - apply perm_swap.
  - vm_compute. reflexivity.
  - vm_compute. reflexivity.
Defined.
